(** * MoltBook personalization engine: a shallow embedding

    The development follows [src/feature_04_personalization_engine.py].
    The class [PersonalizationEngine] keeps two JSON documents in memory,
    [user_data] and [catalog], and rewrites the user's file after every
    mutation.  Methods become functions on a record holding the documents
    and the persisted copy of the user's document; the clock
    ([datetime.now()]) and the ISO date parser are passed in.

    Typing of the JSON documents.  Entries read with [d["k"]] are record
    fields; entries read with [d.get("k", ...)] are optional.  The
    [preferences] mapping is a finite map from category names to values,
    and since [add_preference] branches on [isinstance(..., list)] a value
    is either a list of strings or a single string.  Numbers are the finite
    JSON numbers, as rationals. *)

From Stdlib Require Import ZArith QArith String Ascii List Permutation Sorted.
From stdpp Require Import gmap strings list fin_maps pretty.

Local Open Scope string_scope.
Local Open Scope list_scope.
Local Open Scope Z_scope.

(** ** Data model *)

(** A value of the [preferences] mapping. *)
Inductive pref_value : Type :=
  | PList (l : list string)
  | PStr (s : string).

(** One entry of [user_data["history"]], as built by [record_interaction]. *)
Record Interaction : Type := mkInteraction {
  book_id : string;
  action : string;
  timestamp : string;
  rating : option Z
}.

(** One entry of [catalog["books"]]; every field is read with [book.get]. *)
Record Book : Type := mkBook {
  b_id : option string;
  b_title : option string;
  b_author : option string;
  b_genres : option (list string);
  b_themes : option (list string);
  b_reading_level : option string;
  b_formats : option (list string);
  b_average_rating : option Q;
  b_popularity : option Q;
  b_recent_views : option Q;
  b_added_date : option string
}.

(** The user's document. *)
Record UserData : Type := mkUserData {
  preferences : gmap string pref_value;
  history : list Interaction;
  ratings : gmap string Z;
  bookmarks : list string;
  created_at : string
}.

(** The catalog document, [{"books": [...]}]. *)
Record Catalog : Type := mkCatalog {
  books : list Book
}.

(** The engine: the two documents in memory and the content of
    [self.user_file] on disk ([None] while the file does not exist). *)
Record PersonalizationEngine : Type := mkEngine {
  user_data : UserData;
  catalog : Catalog;
  user_file : option UserData
}.

(** ** Python operations on preference values *)

(** The characters of a string, each as a one-character string: what
    iterating over a [str] yields. *)
Definition py_chars (s : string) : list string :=
  map (fun c => String c EmptyString) (list_ascii_of_string s).

(** [a in s] for two strings: [a] occurs in [s] as a substring. *)
Fixpoint py_substring (a s : string) : bool :=
  String.prefix a s ||
  match s with
  | EmptyString => false
  | String _ s' => py_substring a s'
  end.

(** Iterating over a preference value. *)
Definition py_iter (v : pref_value) : list string :=
  match v with
  | PList l => l
  | PStr s => py_chars s
  end.

(** [set(v)]. *)
Definition py_set (v : pref_value) : gset string := list_to_set (py_iter v).

(** [x in v]. *)
Definition py_in (x : string) (v : pref_value) : bool :=
  match v with
  | PList l => bool_decide (x ∈ l)
  | PStr s => py_substring x s
  end.

(** [a == b] where [a] is an optional string of a book and [b] an optional
    preference value ([None == None] holds; a string never equals a list). *)
Definition py_eq_opt (a : option string) (b : option pref_value) : bool :=
  match a, b with
  | None, None => true
  | Some x, Some (PStr y) => bool_decide (x = y)
  | _, _ => false
  end.

(** [avg_rating >= c] on numbers. *)
Definition py_ge (x c : Q) : bool := Qle_bool c x.

(** ** ProfileStore *)

(** The document [_load_user_data] returns when the user's file is absent. *)
Definition default_user_data (now : string) : UserData :=
  {| preferences :=
       <["genres" := PList []]>
       (<["authors" := PList []]>
       (<["themes" := PList []]>
       (<["reading_level" := PStr "general"]>
       (<["format_preference" := PList ["digital"; "audio"]]> ∅))));
     history := [];
     ratings := ∅;
     bookmarks := [];
     created_at := now |}.

Definition _load_user_data (file : option UserData) (now : string) : UserData :=
  match file with
  | Some d => d
  | None => default_user_data now
  end.

Definition _load_catalog (file : option Catalog) : Catalog :=
  match file with
  | Some c => c
  | None => {| books := [] |}
  end.

(** [__init__]: load both documents. *)
Definition init (file : option UserData) (cfile : option Catalog) (now : string)
  : PersonalizationEngine :=
  {| user_data := _load_user_data file now;
     catalog := _load_catalog cfile;
     user_file := file |}.

(** [save_user_data]: overwrite the file with the document in memory. *)
Definition save_user_data (self : PersonalizationEngine) : PersonalizationEngine :=
  {| user_data := user_data self;
     catalog := catalog self;
     user_file := Some (user_data self) |}.

Definition with_user_data (self : PersonalizationEngine) (d : UserData)
  : PersonalizationEngine :=
  {| user_data := d; catalog := catalog self; user_file := user_file self |}.

Definition set_preferences (d : UserData) (p : gmap string pref_value) : UserData :=
  {| preferences := p; history := history d; ratings := ratings d;
     bookmarks := bookmarks d; created_at := created_at d |}.

(** [add_preference]. *)
Definition add_preference (self : PersonalizationEngine) (category value : string)
  : PersonalizationEngine :=
  let d := user_data self in
  let d' :=
    match preferences d !! category with
    | Some (PList l) =>
        if bool_decide (value ∈ l) then d
        else set_preferences d (<[category := PList (l ++ [value])]> (preferences d))
    | Some (PStr _) =>
        set_preferences d (<[category := PStr value]> (preferences d))
    | None => d
    end in
  save_user_data (with_user_data self d').

(** Truth value of the [rating] argument: [None] and [0] are false. *)
Definition py_truthy_rating (r : option Z) : bool :=
  match r with
  | Some z => negb (z =? 0)
  | None => false
  end.

(** [record_interaction]; [now] is [datetime.now().isoformat()]. *)
Definition record_interaction (self : PersonalizationEngine) (now : string)
    (bid act : string) (r : option Z) : PersonalizationEngine :=
  let d := user_data self in
  let interaction :=
    {| book_id := bid; action := act; timestamp := now; rating := r |} in
  let history' := history d ++ [interaction] in
  let ratings' :=
    match r with
    | Some z => if py_truthy_rating r then <[bid := z]> (ratings d) else ratings d
    | None => ratings d
    end in
  let bookmarks' :=
    if bool_decide (act = "bookmarked") then
      if bool_decide (bid ∈ bookmarks d) then bookmarks d
      else bookmarks d ++ [bid]
    else bookmarks d in
  save_user_data (with_user_data self
    {| preferences := preferences d; history := history'; ratings := ratings';
       bookmarks := bookmarks'; created_at := created_at d |}).

(** ** RelevanceScorer *)

Definition _calculate_relevance_score (self : PersonalizationEngine) (book : Book) : Z :=
  let score := 0 in
  let prefs := preferences (user_data self) in
  (* Genre match (weight: 3) *)
  let book_genres := default [] (b_genres book) in
  let user_genres := default (PList []) (prefs !! "genres") in
  let genre_matches : gset string := list_to_set book_genres ∩ py_set user_genres in
  let score := score + Z.of_nat (size genre_matches) * 3 in
  (* Author match (weight: 4) *)
  let book_author := default EmptyString (b_author book) in
  let score :=
    if py_in book_author (default (PList []) (prefs !! "authors"))
    then score + 4 else score in
  (* Theme match (weight: 2) *)
  let book_themes := default [] (b_themes book) in
  let user_themes := default (PList []) (prefs !! "themes") in
  let theme_matches : gset string := list_to_set book_themes ∩ py_set user_themes in
  let score := score + Z.of_nat (size theme_matches) * 2 in
  (* Reading level match (weight: 2) *)
  let score :=
    if py_eq_opt (b_reading_level book) (prefs !! "reading_level")
    then score + 2 else score in
  (* Format preference match (weight: 1) *)
  let available_formats := default [] (b_formats book) in
  let preferred_formats := default (PList []) (prefs !! "format_preference") in
  let format_matches : gset string :=
    list_to_set available_formats ∩ py_set preferred_formats in
  let score := score + Z.of_nat (size format_matches) in
  (* Rating bonus *)
  let avg_rating := default (0 # 1)%Q (b_average_rating book) in
  if py_ge avg_rating (45 # 10)%Q then score + 5
  else if py_ge avg_rating (4 # 1)%Q then score + 3
  else score.

(** ** Sorting

    [list.sort(key=..., reverse=True)] and [sorted(..., reverse=True)] are
    stable: the result is in descending order of the keys and elements with
    equal keys keep their original order.  The library routine is modelled
    by a stable insertion sort that, as Python does, compares keys with
    [<] only; [stable_desc_sort_unique] below shows that the contract
    leaves no other choice of result. *)

Section PySort.
Context {A K : Type} (key : A -> K) (ltb : K -> K -> bool).

Fixpoint insert_desc (x : A) (l : list A) : list A :=
  match l with
  | [] => [x]
  | y :: l' =>
      if ltb (key x) (key y) then y :: insert_desc x l' else x :: y :: l'
  end.

Definition py_sort_desc (l : list A) : list A := foldr insert_desc [] l.
End PySort.

(** [<] on numbers and on pairs of numbers (tuples compare at the first
    position where they differ). *)
Definition Qltb (x y : Q) : bool := negb (Qle_bool y x).

Definition pair_ltb (x y : Q * Q) : bool :=
  if Qeq_bool (fst x) (fst y) then Qltb (snd x) (snd y) else Qltb (fst x) (fst y).

(** ** CatalogStore *)

Definition _get_book_by_id (self : PersonalizationEngine) (bid : string) : option Book :=
  List.find (fun book => bool_decide (b_id book = Some bid)) (books (catalog self)).

(** ** RecommendationEngine *)

Definition _get_default_recommendations (self : PersonalizationEngine) (n : nat)
  : list Book :=
  let bks := books (catalog self) in
  match bks with
  | [] => []
  | _ =>
      let sorted_books :=
        py_sort_desc
          (fun x => (default (0 # 1)%Q (b_average_rating x),
                     default (0 # 1)%Q (b_popularity x)))
          pair_ltb bks in
      take n sorted_books
  end.

(** [book.get("id") not in read_books]: a book without an id is in no set
    of strings. *)
Definition id_not_in (i : option string) (s : gset string) : bool :=
  match i with
  | Some x => bool_decide (x ∉ s)
  | None => true
  end.

(** [get_recommendations]; [n] is a count (the callers pass 5). *)
Definition get_recommendations (self : PersonalizationEngine) (n : nat) : list Book :=
  match books (catalog self) with
  | [] => _get_default_recommendations self n
  | _ =>
      (* Score books based on user preferences *)
      let book_scores :=
        fold_left
          (fun book_scores book =>
             let score := _calculate_relevance_score self book in
             book_scores ++ [(book, score)])
          (books (catalog self)) [] in
      (* Sort by score and return top N *)
      let book_scores := py_sort_desc snd Z.ltb book_scores in
      (* Filter out already read books *)
      let read_books : gset string :=
        list_to_set (map book_id (history (user_data self))) in
      let recommendations :=
        take n
          (map fst
             (List.filter (fun bs => id_not_in (b_id (fst bs)) read_books)
                book_scores)) in
      recommendations
  end.

(** ** FeedAssembler *)

(** [_get_continue_reading].  A book returned by [_get_book_by_id] has an
    ["id"] entry, so it is a non-empty mapping and [if book:] only tests
    that the lookup succeeded. *)
Definition _get_continue_reading (self : PersonalizationEngine) : list Book :=
  let hist := history (user_data self) in
  let in_progress :=
    fold_left
      (fun in_progress interaction =>
         if bool_decide (action interaction = "started") then
           let bid := book_id interaction in
           (* Check if not completed *)
           let completed :=
             existsb
               (fun h => bool_decide (book_id h = bid)
                         && bool_decide (action h = "completed"))
               hist in
           if negb completed then
             match _get_book_by_id self bid with
             | Some book => in_progress ++ [book]
             | None => in_progress
             end
           else in_progress
         else in_progress)
      hist [] in
  take 3 in_progress.

(** A parsed date: [datetime.now()] is naive, and a parsed text is naive or
    carries an offset; subtracting one from the other raises [TypeError].
    Naive instants are counted in microseconds. *)
Inductive datetime : Type :=
  | Naive (us : Z)
  | Aware (us : Z) (offset : Z).

Definition day_us : Z := 86400000000.

(** [(now - date).days]: a [timedelta] is normalised so that [days] is the
    floor of the quotient. *)
Definition timedelta_days (now t : Z) : Z := (now - t) / day_us.

Section Dates.
(** [datetime.fromisoformat]: [None] stands for [ValueError]. *)
Variable fromisoformat : string -> option datetime.

(** [_get_new_in_preferred_genres]; [now] is the reading of the clock. *)
Definition _get_new_in_preferred_genres (now : Z) (self : PersonalizationEngine)
  : list Book :=
  let preferred_genres :=
    default (PList []) (preferences (user_data self) !! "genres") in
  let new_books :=
    fold_left
      (fun new_books book =>
         let book_genres := default [] (b_genres book) in
         if existsb (fun g => py_in g preferred_genres) book_genres then
           (* Check if added recently (within 30 days) *)
           let added_date := default EmptyString (b_added_date book) in
           if negb (String.eqb added_date EmptyString) then
             match fromisoformat added_date with
             | Some (Naive t) =>
                 if timedelta_days now t <=? 30 then new_books ++ [book]
                 else new_books
             | Some (Aware _ _) => new_books   (* TypeError, swallowed *)
             | None => new_books               (* ValueError, swallowed *)
             end
           else new_books
         else new_books)
      (books (catalog self)) [] in
  take 5 new_books.
End Dates.

Definition _get_trending (self : PersonalizationEngine) : list Book :=
  let trending :=
    py_sort_desc (fun x => default (0 # 1)%Q (b_recent_views x)) Qltb
      (books (catalog self)) in
  take 5 trending.

Record Feed : Type := mkFeed {
  recommendations : list Book;
  continue_reading : list Book;
  new_in_genres : list Book;
  trending : list Book;
  generated_at : string
}.

(** [generate_personalized_feed]; [now] is the clock as read by the date
    filter and [stamp] the text of the clock at assembly. *)
Definition generate_personalized_feed (fromisoformat : string -> option datetime)
    (now : Z) (stamp : string) (self : PersonalizationEngine) : Feed :=
  {| recommendations := get_recommendations self 5;
     continue_reading := _get_continue_reading self;
     new_in_genres := _get_new_in_preferred_genres fromisoformat now self;
     trending := _get_trending self;
     generated_at := stamp |}.


(** ** PreferenceAnalyzer *)

(** The two shapes of the mapping [analyze_preferences] returns. *)
Inductive AnalysisReport : Type :=
  | InsufficientData (message : string) (recommendations : list string)
  | Analysis (top_genres : list string) (reading_patterns : list (string * Z))
      (average_rating_given : Q) (total_books_interacted : nat)
      (suggestions : list string).

(** [d[k] += 1] on a [defaultdict(int)]; a dictionary keeps its keys in
    insertion order, which [sorted] and [dict(actions)] expose. *)
Fixpoint count_incr (k : string) (d : list (string * Z)) : list (string * Z) :=
  match d with
  | [] => [(k, 1)]
  | (k', c) :: d' =>
      if String.eqb k k' then (k', c + 1) :: d' else (k', c) :: count_incr k d'
  end.

Definition _generate_preference_suggestions (self : PersonalizationEngine)
    (top_genres : list (string * Z)) : list string :=
  let suggestions := [] in
  let suggestions :=
    match top_genres with
    | [] => suggestions ++ ["Explore different genres to get better recommendations"]
    | g :: _ =>
        if (length top_genres <? 3)%nat then
          suggestions ++
            ["You seem to like " +:+ fst g +:+ " - try exploring similar genres"]
        else suggestions
    end in
  if (size (ratings (user_data self)) <? 5)%nat then
    suggestions ++ ["Rate more books to improve recommendations"]
  else suggestions.

Section Analyzer.
(** [round(x, 2)] of the float nearest to [x]; floating point is left
    abstract. *)
Variable round2 : Q -> Q.

(** One iteration of the genre-counting loop.  The state carries the
    counter and the ids handed to [_get_book_by_id] so far. *)
Definition count_genres_step (self : PersonalizationEngine)
    (st : list (string * Z) * list string) (interaction : Interaction)
  : list (string * Z) * list string :=
  let (genre_counts, looked_up) := st in
  let book := _get_book_by_id self (book_id interaction) in
  let looked_up := looked_up ++ [book_id interaction] in
  match book with
  | Some b =>
      (fold_left (fun gc genre => count_incr genre gc) (default [] (b_genres b))
         genre_counts,
       looked_up)
  | None => (genre_counts, looked_up)
  end.

(** [analyze_preferences], returning the report together with the list of
    ids it looked up in the catalog. *)
Definition analyze_preferences_log (self : PersonalizationEngine)
  : AnalysisReport * list string :=
  let hist := history (user_data self) in
  match hist with
  | [] =>
      (InsufficientData "Not enough data to analyze preferences"
         ["Start reading books to get personalized recommendations"],
       [])
  | _ =>
      (* Most read genres *)
      let (genre_counts, looked_up) :=
        fold_left (count_genres_step self) hist ([], []) in
      let top_genres := take 3 (py_sort_desc snd Z.ltb genre_counts) in
      (* Reading patterns *)
      let actions :=
        fold_left (fun acts interaction => count_incr (action interaction) acts)
          hist [] in
      (* Average rating given *)
      let rs := map snd (map_to_list (ratings (user_data self))) in
      let avg_rating :=
        match rs with
        | [] => (0 # 1)%Q
        | _ =>
            round2 (Qdiv (inject_Z (foldr Z.add 0 rs))
                      (inject_Z (Z.of_nat (length rs))))
        end in
      (Analysis (map fst top_genres) actions avg_rating
         (size (list_to_set (map book_id hist) : gset string))
         (_generate_preference_suggestions self top_genres),
       looked_up)
  end.

Definition analyze_preferences (self : PersonalizationEngine) : AnalysisReport :=
  fst (analyze_preferences_log self).
End Analyzer.

(** ** Command line

    [main] parses the arguments, builds an engine for the user and runs one
    action.  The files under the data directory are a mapping from user ids
    to stored documents, next to the catalog file; what [print] writes is
    the list of printed texts.  [json.dumps] is a parameter. *)

(** The [choices] of [--action]. *)
Inductive cli_action : Type :=
  | Recommend
  | ShowFeed
  | Analyze
  | Rate.

(** The parsed arguments: [--user], [--action], [--book-id], [--rating]. *)
Record Args : Type := mkArgs {
  arg_user : string;
  arg_action : cli_action;
  arg_book_id : option string;
  arg_rating : option Z
}.

(** The files of the data directory. *)
Record Disk : Type := mkDisk {
  user_files : gmap string UserData;
  catalog_file : option Catalog
}.

(** [user_id or "anonymous"]. *)
Definition engine_user_id (user_id : option string) : string :=
  match user_id with
  | Some u => if String.eqb u EmptyString then "anonymous" else u
  | None => "anonymous"
  end.

(** [PersonalizationEngine(user_id)] over the files. *)
Definition open_engine (disk : Disk) (user_id : option string) (now : string)
  : PersonalizationEngine :=
  init (user_files disk !! engine_user_id user_id) (catalog_file disk) now.

(** The files once the engine of user [uid] is done: its file holds what
    the engine last wrote, or is as it was. *)
Definition close_engine (disk : Disk) (uid : string) (e : PersonalizationEngine)
  : Disk :=
  match user_file e with
  | Some d =>
      {| user_files := <[uid := d]> (user_files disk);
         catalog_file := catalog_file disk |}
  | None => disk
  end.

(** Truth value of [args.book_id]. *)
Definition py_truthy_str (o : option string) : bool :=
  match o with
  | Some x => negb (String.eqb x EmptyString)
  | None => false
  end.

(** One line of the [recommend] listing, numbered from 1. *)
Definition recommendation_line (i : nat) (book : Book) : string :=
  pretty (S i) +:+ ". " +:+ default "Unknown" (b_title book)
  +:+ " by " +:+ default "Unknown" (b_author book).

Section Main.
Variable dumps_feed : Feed -> string.
Variable dumps_report : AnalysisReport -> string.
Variable fromisoformat : string -> option datetime.
Variable round2 : Q -> Q.

(** [main]; [t_init] and [t_act] are the texts of the clock when the
    engine is built and when the action runs, [now] the clock as read by
    the date filter. *)
Definition main (disk : Disk) (args : Args) (t_init t_act : string) (now : Z)
  : Disk * list string :=
  let uid := engine_user_id (Some (arg_user args)) in
  let engine := open_engine disk (Some (arg_user args)) t_init in
  match arg_action args with
  | Recommend =>
      let recommendations := get_recommendations engine 5 in
      (close_engine disk uid engine,
       "📚 Personalized Recommendations:"
         :: imap recommendation_line recommendations)
  | ShowFeed =>
      let feed := generate_personalized_feed fromisoformat now t_act engine in
      (close_engine disk uid engine,
       ["📰 Your Personalized Feed:"; dumps_feed feed])
  | Analyze =>
      let analysis := analyze_preferences round2 engine in
      (close_engine disk uid engine,
       ["📊 Preference Analysis:"; dumps_report analysis])
  | Rate =>
      match arg_book_id args, arg_rating args with
      | Some bid, Some r =>
          if py_truthy_str (Some bid) && py_truthy_rating (Some r) then
            let engine := record_interaction engine t_act bid "rated" (Some r) in
            (close_engine disk uid engine,
             ["✅ Rated book " +:+ bid +:+ ": " +:+ pretty r +:+ "/5"])
          else
            (close_engine disk uid engine,
             ["❌ Please provide --book-id and --rating"])
      | _, _ =>
          (close_engine disk uid engine,
           ["❌ Please provide --book-id and --rating"])
      end
  end.
End Main.

(** * Vocabulary of the statements *)

(** ** The sorting contract *)

Section SortContract.
Context {A : Type} (key : A -> Z).

(** [a] may stand before [b] in descending order. *)
Definition desc : A -> A -> Prop := fun a b => key b <= key a.

(** The elements whose key is [k]. *)
Definition has_key (k : Z) : A -> bool := fun a => key a =? k.

(** [r] is [l] sorted in descending order of [key], ties in the order of
    [l]. *)
Definition is_stable_desc_sort (l r : list A) : Prop :=
  StronglySorted desc r /\
  forall k, List.filter (has_key k) r = List.filter (has_key k) l.
End SortContract.

(** ** Recommendations *)

(** The ids of the interactions recorded in the history. *)
Definition interacted_ids (self : PersonalizationEngine) : list string :=
  map book_id (history (user_data self)).

(** The book carries no id that occurs in the history. *)
Definition not_interacted (self : PersonalizationEngine) (b : Book) : bool :=
  match b_id b with
  | Some i => bool_decide (i ∉ interacted_ids self)
  | None => true
  end.

(** ** The relevance score as a sum of weighted terms *)

(** The categories whose value is a list in the profile document. *)
Definition list_categories : list string :=
  ["genres"; "authors"; "themes"; "format_preference"].

(** No list category holds a single string. *)
Definition list_shaped (self : PersonalizationEngine) : Prop :=
  forall k s, k ∈ list_categories ->
    preferences (user_data self) !! k <> Some (PStr s).

(** The values listed under a category; nothing when the category is
    absent. *)
Definition pref_list (self : PersonalizationEngine) (k : string) : list string :=
  match preferences (user_data self) !! k with
  | Some (PList l) => l
  | _ => []
  end.

(** How many distinct values of [xs] occur in [ys]. *)
Definition common (xs ys : list string) : Z :=
  Z.of_nat (length (filter (fun x => x ∈ ys) (remove_dups xs))).

(** The rating term: 5 from 4.5 on, else 3 from 4.0 on, else nothing. *)
Definition rating_bonus (r : option Q) : Z :=
  match r with
  | Some q =>
      if Qle_bool (45 # 10) q then 5 else if Qle_bool (4 # 1) q then 3 else 0
  | None => 0
  end.

(** The reading-level term: the book states a level and it is the
    profile's. *)
Definition level_bonus (self : PersonalizationEngine) (b : Book) : Z :=
  match b_reading_level b, preferences (user_data self) !! "reading_level" with
  | Some r, Some (PStr r') => if bool_decide (r = r') then 2 else 0
  | _, _ => 0
  end.

(** The score as the specification words it: an absent field adds
    nothing. *)
Definition claimed_score (self : PersonalizationEngine) (b : Book) : Z :=
  3 * common (default [] (b_genres b)) (pref_list self "genres")
  + match b_author b with
    | Some a => if bool_decide (a ∈ pref_list self "authors") then 4 else 0
    | None => 0
    end
  + 2 * common (default [] (b_themes b)) (pref_list self "themes")
  + level_bonus self b
  + common (default [] (b_formats b)) (pref_list self "format_preference")
  + rating_bonus (b_average_rating b).

(** The score as the code computes it on list-shaped profiles: as above,
    but a book without author is looked up as the empty string. *)
Definition additive_score (self : PersonalizationEngine) (b : Book) : Z :=
  3 * common (default [] (b_genres b)) (pref_list self "genres")
  + (if bool_decide (default EmptyString (b_author b) ∈ pref_list self "authors")
     then 4 else 0)
  + 2 * common (default [] (b_themes b)) (pref_list self "themes")
  + level_bonus self b
  + common (default [] (b_formats b)) (pref_list self "format_preference")
  + rating_bonus (b_average_rating b).

(** ** The profile *)

(** Every list-valued preference and the bookmarks hold each value at most
    once. *)
Definition no_duplicates (d : UserData) : Prop :=
  (forall k l, preferences d !! k = Some (PList l) -> NoDup l) /\
  NoDup (bookmarks d).

(** The same engine over another catalog. *)
Definition with_catalog (self : PersonalizationEngine) (c : Catalog)
  : PersonalizationEngine :=
  {| user_data := user_data self; catalog := c; user_file := user_file self |}.

(** The report for a profile without history. *)
Definition insufficient_data_report : AnalysisReport :=
  InsufficientData "Not enough data to analyze preferences"
    ["Start reading books to get personalized recommendations"].

(** ** The feed *)

(** The interaction starts a book that no interaction of the history
    completes. *)
Definition started_unfinished (self : PersonalizationEngine) (h : Interaction) : bool :=
  bool_decide (action h = "started")
  && negb (existsb
             (fun h' => bool_decide (book_id h' = book_id h)
                        && bool_decide (action h' = "completed"))
             (history (user_data self))).

(** One catalog entry per such interaction, in history order; interactions
    whose id the catalog does not know give nothing. *)
Definition continue_reading_entries (self : PersonalizationEngine) : list Book :=
  omap (fun h => if started_unfinished self h
                 then _get_book_by_id self (book_id h) else None)
    (history (user_data self)).

(** The test the loop of [_get_new_in_preferred_genres] applies to a book. *)
Definition is_new_in_genres (fromisoformat : string -> option datetime) (now : Z)
    (self : PersonalizationEngine) (book : Book) : bool :=
  existsb
    (fun g => py_in g (default (PList []) (preferences (user_data self) !! "genres")))
    (default [] (b_genres book))
  && match b_added_date book with
     | Some d =>
         negb (String.eqb d EmptyString)
         && match fromisoformat d with
            | Some (Naive t) => timedelta_days now t <=? 30
            | _ => false
            end
     | None => false
     end.

(** ** Orders on keys *)

Section RankContract.
Context {A K : Type} (key : A -> K) (ltb : K -> K -> bool).

(** [a] may stand before [b]: the key of [a] is not below that of [b]. *)
Definition not_below : A -> A -> Prop := fun a b => ltb (key a) (key b) = false.

(** The key of [a] is neither below nor above [k]. *)
Definition same_rank (k : K) : A -> bool :=
  fun a => negb (ltb (key a) k) && negb (ltb k (key a)).

(** [r] is [l] in descending order of the keys, elements of equal rank in
    the order of [l]. *)
Definition is_stable_ranking (l r : list A) : Prop :=
  StronglySorted not_below r /\
  Permutation r l /\
  forall k, List.filter (same_rank k) r = List.filter (same_rank k) l.
End RankContract.

(** The keys of the two popularity orders. *)
Definition views_key (x : Book) : Q := default (0 # 1)%Q (b_recent_views x).

Definition popularity_key (x : Book) : Q * Q :=
  (default (0 # 1)%Q (b_average_rating x), default (0 # 1)%Q (b_popularity x)).

(** How often [k] was counted. *)
Definition count_of (k : string) (d : list (string * Z)) : Z :=
  default 0 (snd <$> List.find (fun kc => String.eqb k (fst kc)) d).

(** ** The analysis *)

(** The counter of genres after the first loop of [analyze_preferences]. *)
Definition genre_counts (self : PersonalizationEngine) : list (string * Z) :=
  fst (fold_left (count_genres_step self) (history (user_data self)) ([], [])).

(** The counter of actions after the second loop. *)
Definition action_counts (self : PersonalizationEngine) : list (string * Z) :=
  fold_left (fun acts interaction => count_incr (action interaction) acts)
    (history (user_data self)) [].

(** How often [x] occurs in [l]. *)
Definition occurrences (x : string) (l : list string) : Z :=
  Z.of_nat (length (filter (fun y => y = x) l)).

(** How often the books of the interactions [hist] carry the genre [g]:
    each interaction whose id the catalog knows counts once per occurrence
    of [g] among the genres of that book. *)
Definition genre_tally (self : PersonalizationEngine) (g : string)
    (hist : list Interaction) : Z :=
  foldr Z.add 0
    (map (fun h => match _get_book_by_id self (book_id h) with
                   | Some b => occurrences g (default [] (b_genres b))
                   | None => 0
                   end) hist).

(** The three highest entries of the genre counter. *)
Definition top_genre_counts (self : PersonalizationEngine) : list (string * Z) :=
  take 3 (py_sort_desc snd Z.ltb (genre_counts self)).

(** The interaction [record_interaction] appends. *)
Definition new_interaction (now bid act : string) (r : option Z) : Interaction :=
  {| book_id := bid; action := act; timestamp := now; rating := r |}.

(** ** Sample documents *)

(** A catalog entry with no field at all, [{}]. *)
Definition empty_book : Book :=
  mkBook None None None None None None None None None None None.

(** A fresh engine: no stored profile, the given catalog. *)
Definition fresh_engine (bs : list Book) : PersonalizationEngine :=
  init None (Some {| books := bs |}) "2024-01-01T00:00:00".

(** An engine over a stored profile whose [preferences] mapping is empty. *)
Definition bare_engine (bs : list Book) : PersonalizationEngine :=
  init (Some (mkUserData ∅ [] ∅ [] "2024-01-01T00:00:00"))
    (Some {| books := bs |}) "2024-01-02T00:00:00".

(** The scenario of the specification: a profile that likes "scifi", an
    item A that matches and is highly rated, an item B that matches
    nothing. *)
Definition scifi_engine (bs : list Book) : PersonalizationEngine :=
  add_preference (fresh_engine bs) "genres" "scifi".

Definition book_A : Book :=
  mkBook (Some "A") None (Some "X") (Some ["scifi"]) None None None
    (Some (46 # 10)%Q) None None None.

Definition book_B : Book :=
  mkBook (Some "B") None (Some "X") (Some []) None None None
    (Some (3 # 1)%Q) None None None.

(** A book started twice and never completed. *)
Definition started_twice : PersonalizationEngine :=
  record_interaction
    (record_interaction (fresh_engine [book_A; book_B]) "t1" "A" "started" None)
    "t2" "A" "started" None.

(** A catalog entry in a preferred genre, dated far ahead. *)
Definition future_book : Book :=
  mkBook (Some "F") None None (Some ["scifi"]) None None None None None None
    (Some "2999-01-01").

(** A parser for the one date of the example, counted in microseconds from
    2000-01-01: [2999-01-01] is day 364878. *)
Definition parse_2999 (s : string) : option datetime :=
  if String.eqb s "2999-01-01" then Some (Naive (364878 * day_us)) else None.

(** * Properties *)

(** ** Loops that build a list *)

Lemma fold_left_snoc_map {A B : Type} (g : A -> B) (l : list A) (acc : list B) :
  fold_left (fun acc x => acc ++ [g x]) l acc = acc ++ map g l.
Proof.
  revert acc. induction l as [|x l IH]; intros acc; simpl.
  - by rewrite app_nil_r.
  - rewrite IH. by rewrite <- app_assoc.
Qed.

Lemma map_fst_filter {A B : Type} (P : A -> bool) (l : list (A * B)) :
  map fst (List.filter (fun ab => P (fst ab)) l) = List.filter P (map fst l).
Proof.
  induction l as [|[a b] l IH]; simpl; [done|].
  destruct (P a); simpl; by rewrite IH.
Qed.

(** ** The sorting contract *)

Section SortSpec.
Context {A : Type} (key : A -> Z).

Lemma insert_desc_Permutation (x : A) (l : list A) :
  Permutation (insert_desc key Z.ltb x l) (x :: l).
Proof.
  induction l as [|y l IH]; simpl; [done|].
  destruct (key x <? key y); [|done].
  rewrite IH. apply perm_swap.
Qed.

Lemma py_sort_desc_Permutation (l : list A) :
  Permutation (py_sort_desc key Z.ltb l) l.
Proof.
  induction l as [|x l IH]; simpl; [done|].
  rewrite insert_desc_Permutation. by constructor.
Qed.

Lemma insert_desc_sorted (x : A) (l : list A) :
  StronglySorted (desc key) l -> StronglySorted (desc key) (insert_desc key Z.ltb x l).
Proof.
  induction 1 as [|y l Hs IH Hy]; simpl.
  - repeat constructor.
  - destruct (Z.ltb_spec (key x) (key y)) as [Hlt|Hge].
    + constructor; [done|].
      rewrite insert_desc_Permutation. constructor; [unfold desc; lia | done].
    + constructor; [by constructor|].
      constructor; [done|].
      eapply Forall_impl; [exact Hy|]. unfold desc. intros z Hz. lia.
Qed.

Lemma insert_desc_filter (k : Z) (x : A) (l : list A) :
  List.filter (has_key key k) (insert_desc key Z.ltb x l)
  = List.filter (has_key key k) (x :: l).
Proof.
  induction l as [|y l IH]; simpl; [done|].
  destruct (Z.ltb_spec (key x) (key y)) as [Hlt|Hge]; [|done].
  simpl. rewrite IH. simpl. unfold has_key.
  destruct (Z.eqb_spec (key x) k), (Z.eqb_spec (key y) k); try done. lia.
Qed.

Lemma py_sort_desc_stable (l : list A) :
  is_stable_desc_sort key l (py_sort_desc key Z.ltb l).
Proof.
  split.
  - induction l as [|x l IH]; simpl; [constructor|]. by apply insert_desc_sorted.
  - intros k. induction l as [|x l IH]; simpl; [done|].
    rewrite insert_desc_filter. simpl. by rewrite IH.
Qed.

Lemma filter_has_key_head (x : A) (l : list A) :
  List.filter (has_key key (key x)) (x :: l) = x :: List.filter (has_key key (key x)) l.
Proof. simpl. unfold has_key. by rewrite Z.eqb_refl. Qed.

(** Two descending lists with the same elements of every key, in the same
    order, are equal. *)
Lemma desc_filter_unique (r1 r2 : list A) :
  StronglySorted (desc key) r1 -> StronglySorted (desc key) r2 ->
  (forall k, List.filter (has_key key k) r1 = List.filter (has_key key k) r2) ->
  r1 = r2.
Proof.
  intros H1. revert r2. induction H1 as [|x r1 Hs1 IH Hx]; intros r2 H2 Hf.
  - destruct r2 as [|y r2]; [done|].
    specialize (Hf (key y)). rewrite filter_has_key_head in Hf. done.
  - destruct H2 as [|y r2 Hs2 Hy].
    { specialize (Hf (key x)). rewrite filter_has_key_head in Hf. done. }
    assert (key x = key y) as Hk.
    { assert (In x (y :: r2)) as Hin.
      { apply (proj1 (filter_In (has_key key (key x)) x (y :: r2))).
        rewrite <- Hf, filter_has_key_head. by left. }
      assert (In y (x :: r1)) as Hin'.
      { apply (proj1 (filter_In (has_key key (key y)) y (x :: r1))).
        rewrite Hf, filter_has_key_head. by left. }
      destruct Hin as [->|Hin]; [done|].
      destruct Hin' as [->|Hin']; [done|].
      rewrite List.Forall_forall in Hx, Hy.
      specialize (Hx _ Hin'). specialize (Hy _ Hin). unfold desc in *. lia. }
    assert (x = y) as ->.
    { specialize (Hf (key x)). rewrite filter_has_key_head in Hf.
      rewrite Hk, filter_has_key_head in Hf. congruence. }
    f_equal. apply IH; [done|]. intros k. specialize (Hf k). simpl in Hf.
    destruct (has_key key k y); congruence.
Qed.

(** The contract determines the result of the sort. *)
Lemma stable_desc_sort_unique (l r : list A) :
  is_stable_desc_sort key l r -> r = py_sort_desc key Z.ltb l.
Proof.
  intros [Hs Hf]. destruct (py_sort_desc_stable l) as [Hs' Hf'].
  apply desc_filter_unique; [done..|]. intros k. by rewrite Hf, Hf'.
Qed.
End SortSpec.

(** Sorting pairs [(x, f x)] on their second component sorts the first
    components on [f]. *)
Lemma py_sort_desc_decorated {A : Type} (f : A -> Z) (l : list A) :
  map fst (py_sort_desc snd Z.ltb (map (fun x => (x, f x)) l))
  = py_sort_desc f Z.ltb l.
Proof.
  assert (forall x r,
    Forall (fun p => snd p = f (fst p)) r ->
    map fst (insert_desc snd Z.ltb (x, f x) r)
    = insert_desc f Z.ltb x (map fst r)) as Hins.
  { intros x r Hr. induction Hr as [|[y s] r Hy Hr IH]; simpl in *; [done|].
    subst s. destruct (f x <? f y); simpl; [by rewrite IH | done]. }
  induction l as [|x l IH]; simpl; [done|].
  rewrite Hins; [by rewrite IH|].
  rewrite py_sort_desc_Permutation. apply List.Forall_forall.
  intros p Hp. apply in_map_iff in Hp as (y & <- & _). done.
Qed.

(** ** Recommendations *)

Lemma id_not_in_read_books (self : PersonalizationEngine) (b : Book) :
  id_not_in (b_id b) (list_to_set (interacted_ids self)) = not_interacted self b.
Proof.
  unfold id_not_in, not_interacted. destruct (b_id b) as [i|]; [|done].
  apply bool_decide_ext. by rewrite elem_of_list_to_set.
Qed.

(** The whole of [get_recommendations] as one expression; the empty catalog
    takes the default path and ends up at the same place. *)
Lemma get_recommendations_unfold (self : PersonalizationEngine) (n : nat) :
  get_recommendations self n
  = take n (List.filter (not_interacted self)
              (py_sort_desc (_calculate_relevance_score self) Z.ltb
                 (books (catalog self)))).
Proof.
  unfold get_recommendations, _get_default_recommendations.
  destruct (books (catalog self)) as [|b bs] eqn:Hb.
  - simpl. by rewrite take_nil.
  - rewrite <- Hb. clear Hb.
    rewrite (fold_left_snoc_map
               (fun book => (book, _calculate_relevance_score self book))).
    rewrite app_nil_l.
    rewrite (map_fst_filter
               (fun b => id_not_in (b_id b) (list_to_set (interacted_ids self)))).
    rewrite py_sort_desc_decorated. f_equal.
    apply filter_ext. intros a. apply id_not_in_read_books.
Qed.

(** C2.  For every profile, catalog and [n], [get_recommendations] returns
    at most [n] books, each of them is a book of the catalog, and the id of
    a returned book is the [book_id] of no interaction of the history. *)
Theorem get_recommendations_sound (self : PersonalizationEngine) (n : nat) :
  (length (get_recommendations self n) <= n)%nat /\
  (forall b, b ∈ get_recommendations self n -> b ∈ books (catalog self)) /\
  (forall b i h, b ∈ get_recommendations self n -> b_id b = Some i ->
     h ∈ history (user_data self) -> book_id h <> i).
Proof.
  rewrite get_recommendations_unfold.
  assert (forall b,
    b ∈ take n (List.filter (not_interacted self)
                  (py_sort_desc (_calculate_relevance_score self) Z.ltb
                     (books (catalog self)))) ->
    b ∈ books (catalog self) /\ not_interacted self b = true) as Hin.
  { intros b Hb. apply subseteq_take in Hb. apply list_elem_of_In in Hb.
    apply filter_In in Hb as [Hb Hni]. split; [|done].
    apply list_elem_of_In. eapply Permutation_in; [|exact Hb].
    apply py_sort_desc_Permutation. }
  split; [|split].
  - rewrite length_take. lia.
  - intros b Hb. by apply Hin.
  - intros b i h Hb Hi Hh Heq. apply Hin in Hb as [_ Hni].
    unfold not_interacted in Hni. rewrite Hi in Hni.
    apply bool_decide_eq_true in Hni. apply Hni.
    unfold interacted_ids. subst i. by apply list_elem_of_fmap_2.
Qed.

(** C3.  [get_recommendations] is: score every book of the catalog, sort
    in descending order of the score with ties in catalog order, drop the
    books whose id occurs in the history, keep the first [n].  The ranking
    [ranked] is the one list that is descending in the score and stable
    with respect to the catalog; when at most [n] books are left after the
    exclusion, all of them are returned and nothing else.  The statement
    holds for every catalog, the non-empty ones in particular. *)
Theorem get_recommendations_ranked (self : PersonalizationEngine) (n : nat) :
  exists ranked : list Book,
    is_stable_desc_sort (_calculate_relevance_score self)
      (books (catalog self)) ranked /\
    (forall r,
       is_stable_desc_sort (_calculate_relevance_score self)
         (books (catalog self)) r -> r = ranked) /\
    Permutation ranked (books (catalog self)) /\
    get_recommendations self n
    = take n (List.filter (not_interacted self) ranked) /\
    ((length (List.filter (not_interacted self) ranked) <= n)%nat ->
     get_recommendations self n = List.filter (not_interacted self) ranked).
Proof.
  exists (py_sort_desc (_calculate_relevance_score self) Z.ltb
            (books (catalog self))).
  split; [apply py_sort_desc_stable|].
  split; [intros r Hr; by apply stable_desc_sort_unique|].
  split; [apply py_sort_desc_Permutation|].
  split; [apply get_recommendations_unfold|].
  intros Hlen. rewrite get_recommendations_unfold. by apply take_ge.
Qed.

(** ** The relevance score as a sum of weighted terms *)

(** The two sums differ only on a book without author scored against a
    profile that lists the empty string as an author. *)
Lemma additive_score_claimed (self : PersonalizationEngine) (b : Book) :
  is_Some (b_author b) \/ EmptyString ∉ pref_list self "authors" ->
  additive_score self b = claimed_score self b.
Proof.
  unfold additive_score, claimed_score. intros [[a Ha]|Hne].
  - by rewrite Ha.
  - destruct (b_author b) as [a|]; [done|]. simpl.
    by rewrite bool_decide_false.
Qed.

Lemma size_inter_common (xs ys : list string) :
  Z.of_nat (size (list_to_set xs ∩ list_to_set ys : gset string)) = common xs ys.
Proof.
  unfold common. f_equal.
  assert (list_to_set xs ∩ list_to_set ys
          = (list_to_set (filter (fun x => x ∈ ys) (remove_dups xs)) : gset string))
    as ->.
  { apply set_eq. intros x.
    rewrite elem_of_intersection, !elem_of_list_to_set, list_elem_of_filter,
      elem_of_remove_dups. tauto. }
  apply size_list_to_set. apply NoDup_filter, NoDup_remove_dups.
Qed.

Lemma py_set_list_shaped (self : PersonalizationEngine) (k : string) :
  list_shaped self -> k ∈ list_categories ->
  py_set (default (PList []) (preferences (user_data self) !! k))
  = list_to_set (pref_list self k).
Proof.
  intros Hs Hk. unfold pref_list. specialize (Hs k).
  destruct (preferences (user_data self) !! k) as [[l|s]|]; try done.
  by destruct (Hs s Hk).
Qed.

Lemma py_in_list_shaped (self : PersonalizationEngine) (k x : string) :
  list_shaped self -> k ∈ list_categories ->
  py_in x (default (PList []) (preferences (user_data self) !! k))
  = bool_decide (x ∈ pref_list self k).
Proof.
  intros Hs Hk. unfold pref_list. specialize (Hs k).
  destruct (preferences (user_data self) !! k) as [[l|s]|]; try done.
  by destruct (Hs s Hk).
Qed.

Lemma py_eq_opt_level (self : PersonalizationEngine) (b : Book) :
  is_Some (b_reading_level b) \/
  is_Some (preferences (user_data self) !! "reading_level") ->
  (if py_eq_opt (b_reading_level b)
        (preferences (user_data self) !! "reading_level")
   then 2 else 0) = level_bonus self b.
Proof.
  unfold level_bonus, py_eq_opt. intros H.
  destruct (b_reading_level b) as [r|],
    (preferences (user_data self) !! "reading_level") as [[l|r']|]; try done.
  destruct H as [[? ?]|[? ?]]; done.
Qed.

(** The six terms of the code, without assumptions on the profile. *)
Lemma _calculate_relevance_score_terms (self : PersonalizationEngine) (b : Book) :
  let prefs := preferences (user_data self) in
  _calculate_relevance_score self b
  = Z.of_nat (size (list_to_set (default [] (b_genres b))
                    ∩ py_set (default (PList []) (prefs !! "genres")) : gset string)) * 3
    + (if py_in (default EmptyString (b_author b)) (default (PList []) (prefs !! "authors"))
       then 4 else 0)
    + Z.of_nat (size (list_to_set (default [] (b_themes b))
                      ∩ py_set (default (PList []) (prefs !! "themes")) : gset string)) * 2
    + (if py_eq_opt (b_reading_level b) (prefs !! "reading_level") then 2 else 0)
    + Z.of_nat (size (list_to_set (default [] (b_formats b))
                      ∩ py_set (default (PList []) (prefs !! "format_preference"))
                      : gset string))
    + rating_bonus (b_average_rating b).
Proof.
  intros prefs. unfold _calculate_relevance_score, rating_bonus, py_ge.
  fold prefs.
  destruct (py_in _ _), (py_eq_opt _ _), (b_average_rating b) as [q|]; simpl;
    repeat match goal with |- context [Qle_bool ?a ?b] => destruct (Qle_bool a b) end;
    lia.
Qed.

(** C1 (amended).  On a profile whose list categories hold lists, and
    unless both the book and the profile lack a reading level, the score is
    the sum of: 3 per distinct genre of the book listed in the profile, 4
    if the book's author (the empty string when the book has none) is a
    listed author, 2 per distinct theme in common, 2 if the book's reading
    level is the profile's, 1 per distinct format in common, and 5, 3 or 0
    for an average rating of at least 4.5, at least 4.0, or less.  Absent
    lists and an absent rating add nothing. *)
Theorem score_additive (self : PersonalizationEngine) (b : Book) :
  list_shaped self ->
  is_Some (b_reading_level b) \/
  is_Some (preferences (user_data self) !! "reading_level") ->
  _calculate_relevance_score self b = additive_score self b.
Proof.
  intros Hs Hl. rewrite _calculate_relevance_score_terms. cbv zeta.
  unfold additive_score.
  assert (forall k, In k list_categories -> k ∈ list_categories) as Hin
    by (intros k; apply list_elem_of_In).
  rewrite !py_set_list_shaped by (try done; apply Hin; simpl; tauto).
  rewrite py_in_list_shaped by (try done; apply Hin; simpl; tauto).
  rewrite !size_inter_common, py_eq_opt_level by done.
  lia.
Qed.

Lemma score_absent_fields_counterexample :
  let e1 := add_preference (fresh_engine [empty_book]) "authors" EmptyString in
  let e2 := bare_engine [empty_book] in
  (_calculate_relevance_score e1 empty_book = 4 /\ claimed_score e1 empty_book = 0)
  /\ (_calculate_relevance_score e2 empty_book = 2 /\ claimed_score e2 empty_book = 0).
Proof. vm_compute. repeat split. Qed.

(** The scenario of the specification: A scores 3 + 5, B scores 0, and A
    is recommended first whatever the order of the catalog. *)
Example score_book_A :
  _calculate_relevance_score (scifi_engine [book_A; book_B]) book_A = 8.
Proof. reflexivity. Qed.

Example score_book_B :
  _calculate_relevance_score (scifi_engine [book_A; book_B]) book_B = 0.
Proof. reflexivity. Qed.

Example recommend_A_then_B :
  get_recommendations (scifi_engine [book_B; book_A]) 2 = [book_A; book_B].
Proof. reflexivity. Qed.

Lemma scifi_engine_list_shaped (bs : list Book) : list_shaped (scifi_engine bs).
Proof.
  intros k s Hk. apply list_elem_of_In in Hk. simpl in Hk.
  destruct Hk as [<-|[<-|[<-|[<-|[]]]]]; vm_compute; discriminate.
Qed.

Lemma score_additive_witness :
  _calculate_relevance_score (scifi_engine [book_A; book_B]) book_A
  = additive_score (scifi_engine [book_A; book_B]) book_A.
Proof.
  apply score_additive.
  - apply scifi_engine_list_shaped.
  - right. vm_compute. eexists. reflexivity.
Defined.

(** ** Mutations of the profile *)

Lemma add_preference_preferences (self : PersonalizationEngine) (c v : string) :
  preferences (user_data (add_preference self c v))
  = match preferences (user_data self) !! c with
    | Some (PList l) =>
        if bool_decide (v ∈ l) then preferences (user_data self)
        else <[c := PList (l ++ [v])]> (preferences (user_data self))
    | Some (PStr _) => <[c := PStr v]> (preferences (user_data self))
    | None => preferences (user_data self)
    end.
Proof.
  unfold add_preference. simpl.
  destruct (preferences (user_data self) !! c) as [[l|s]|]; try done.
  by destruct (bool_decide (v ∈ l)).
Qed.

(** C9.  Adding to the genres preference (a list, or absent, in which
    case [add_preference] adds nothing) a genre the book has never lowers
    the book's score, everything else being equal; and the score is a
    function of the profile and the book: equal inputs give equal scores. *)
Theorem score_monotone_genre (self : PersonalizationEngine) (b : Book) (g : string) :
  (forall s, preferences (user_data self) !! "genres" <> Some (PStr s)) ->
  g ∈ default [] (b_genres b) ->
  _calculate_relevance_score self b
    <= _calculate_relevance_score (add_preference self "genres" g) b
  /\ (forall self' b', self' = self -> b' = b ->
        _calculate_relevance_score self' b' = _calculate_relevance_score self b).
Proof.
  intros Hshape Hg. split; [|by intros ? ? -> ->].
  rewrite !_calculate_relevance_score_terms. cbv zeta.
  rewrite add_preference_preferences.
  destruct (preferences (user_data self) !! "genres") as [[l|s]|] eqn:Hl;
    [|by destruct (Hshape s)|rewrite Hl; apply Z.le_refl].
  destruct (bool_decide (g ∈ l)); [rewrite Hl; apply Z.le_refl|].
  rewrite lookup_insert_eq.
  rewrite !lookup_insert_ne by done. simpl.
  assert (size (list_to_set (default [] (b_genres b)) ∩ py_set (PList l) : gset string)
          <= size (list_to_set (default [] (b_genres b))
                   ∩ py_set (PList (l ++ [g])) : gset string))%nat as Hsz.
  { apply subseteq_size. unfold py_set. simpl. rewrite list_to_set_app_L.
    intros x Hx. apply elem_of_intersection in Hx as [Hx1 Hx2].
    apply elem_of_intersection. split; [done|]. apply elem_of_union. by left. }
  lia.
Qed.

Lemma score_monotone_genre_witness :
  _calculate_relevance_score (fresh_engine [book_A]) book_A
    <= _calculate_relevance_score
         (add_preference (fresh_engine [book_A]) "genres" "scifi") book_A.
Proof.
  apply (score_monotone_genre (fresh_engine [book_A]) book_A "scifi").
  - intros s. vm_compute. discriminate.
  - vm_compute. left.
Defined.

(** C5.  Two interactions with the same id and different ratings between
    1 and 5: the rating kept for the id is the second one, and the history
    gained both records, in the order of the calls. *)
Theorem record_interaction_last_rating_wins (self : PersonalizationEngine)
    (t1 t2 bid a1 a2 : string) (r1 r2 : Z) :
  1 <= r1 <= 5 -> 1 <= r2 <= 5 -> r1 <> r2 ->
  let self' :=
    record_interaction (record_interaction self t1 bid a1 (Some r1))
      t2 bid a2 (Some r2) in
  ratings (user_data self') !! bid = Some r2 /\
  history (user_data self')
  = history (user_data self)
    ++ [mkInteraction bid a1 t1 (Some r1); mkInteraction bid a2 t2 (Some r2)].
Proof.
  intros H1 H2 Hne. simpl.
  destruct (Z.eqb_spec r1 0) as [?|_]; [lia|].
  destruct (Z.eqb_spec r2 0) as [?|_]; [lia|]. simpl.
  split; [apply lookup_insert_eq | by rewrite <- app_assoc].
Qed.

Lemma record_interaction_last_rating_wins_witness :
  let self' :=
    record_interaction
      (record_interaction (fresh_engine [book_A]) "t1" "A" "rated" (Some 2))
      "t2" "A" "rated" (Some 5) in
  ratings (user_data self') !! "A" = Some 5 /\
  history (user_data self')
  = [mkInteraction "A" "rated" "t1" (Some 2);
     mkInteraction "A" "rated" "t2" (Some 5)].
Proof.
  apply (record_interaction_last_rating_wins (fresh_engine [book_A])
           "t1" "t2" "A" "rated" "rated" 2 5); lia.
Defined.

(** ** The no-duplicates invariant *)

Lemma NoDup_snoc_fresh (l : list string) (x : string) :
  NoDup l -> x ∉ l -> NoDup (l ++ [x]).
Proof.
  intros Hl Hx. apply (proj2 (NoDup_app l [x])). split; [done|]. split.
  - intros y Hy Hy'. apply list_elem_of_singleton in Hy'. by subst y.
  - apply NoDup_singleton.
Qed.

Lemma no_duplicates_default (now : string) : no_duplicates (default_user_data now).
Proof.
  split; [|constructor]. intros k l. simpl.
  repeat (rewrite lookup_insert; case_decide;
          [intros [= <-]; apply (bool_decide_unpack _); by vm_compute|]).
  by rewrite lookup_empty.
Qed.

Lemma no_duplicates_add_preference (self : PersonalizationEngine) (c v : string) :
  no_duplicates (user_data self) ->
  no_duplicates (user_data (add_preference self c v)).
Proof.
  intros [Hp Hb]. split; [|unfold add_preference; simpl].
  - intros k l. rewrite add_preference_preferences.
    destruct (preferences (user_data self) !! c) as [[l0|s]|] eqn:Hc; [|..].
    + case_bool_decide as Hv; [apply Hp|].
      rewrite lookup_insert. case_decide; [|apply Hp].
      intros [= <-]. apply NoDup_snoc_fresh; [by eapply Hp | done].
    + rewrite lookup_insert. case_decide; [done|apply Hp].
    + apply Hp.
  - destruct (preferences (user_data self) !! c) as [[l0|s]|]; try done.
    by destruct (bool_decide (v ∈ l0)).
Qed.

Lemma no_duplicates_record_interaction (self : PersonalizationEngine)
    (now bid act : string) (r : option Z) :
  no_duplicates (user_data self) ->
  no_duplicates (user_data (record_interaction self now bid act r)).
Proof.
  intros [Hp Hb]. split; [done|]. simpl.
  case_bool_decide; [|done]. case_bool_decide; [done|].
  by apply NoDup_snoc_fresh.
Qed.

Lemma add_preference_idempotent (self : PersonalizationEngine) (c v : string) :
  add_preference (add_preference self c v) c v = add_preference self c v.
Proof.
  unfold add_preference at 1. rewrite add_preference_preferences.
  destruct (preferences (user_data self) !! c) as [[l|s]|] eqn:Hc.
  - case_bool_decide as Hv.
    + rewrite Hc. rewrite bool_decide_true by done.
      unfold add_preference. rewrite Hc. by rewrite bool_decide_true by done.
    + rewrite lookup_insert_eq. rewrite bool_decide_true; [done|].
      apply elem_of_app. right. by apply list_elem_of_singleton.
  - rewrite lookup_insert_eq. unfold add_preference. rewrite Hc. simpl.
    unfold set_preferences. simpl. by rewrite insert_insert_eq.
  - rewrite Hc. unfold add_preference. by rewrite Hc.
Qed.

Lemma filter_eq_absent (l : list string) (x : string) :
  x ∉ l -> filter (fun y => y = x) l = [].
Proof.
  induction l as [|y l IH]; [done|]. intros H.
  apply not_elem_of_cons in H as [Hne Hl].
  rewrite filter_cons_False by congruence. by apply IH.
Qed.

Lemma NoDup_one_occurrence (l : list string) (x : string) :
  NoDup l -> x ∈ l -> length (filter (fun y => y = x) l) = 1%nat.
Proof.
  induction 1 as [|y l Hy Hl IH]; intros Hx; [by apply elem_of_nil in Hx|].
  apply elem_of_cons in Hx as [->|Hx].
  - rewrite filter_cons_True by done. by rewrite filter_eq_absent.
  - rewrite filter_cons_False; [by apply IH|]. intros ->. done.
Qed.

Example add_genre_twice :
  preferences
    (user_data (add_preference (add_preference (fresh_engine []) "genres" "scifi")
                  "genres" "scifi"))
    !! "genres" = Some (PList ["scifi"]).
Proof. reflexivity. Qed.

(** C6.  The invariant holds of the default document and is kept by
    [add_preference] and [record_interaction]; adding a value twice is the
    same as adding it once, and after adding a genre twice the genres list
    holds it exactly once. *)
Theorem no_duplicates_invariant :
  (forall now, no_duplicates (default_user_data now)) /\
  (forall self c v,
     no_duplicates (user_data self) ->
     no_duplicates (user_data (add_preference self c v))) /\
  (forall self now bid act r,
     no_duplicates (user_data self) ->
     no_duplicates (user_data (record_interaction self now bid act r))) /\
  (forall self c v,
     add_preference (add_preference self c v) c v = add_preference self c v) /\
  (forall self g l,
     no_duplicates (user_data self) ->
     preferences (user_data self) !! "genres" = Some (PList l) ->
     exists l',
       preferences
         (user_data (add_preference (add_preference self "genres" g) "genres" g))
         !! "genres" = Some (PList l') /\
       length (filter (fun y => y = g) l') = 1%nat).
Proof.
  split; [apply no_duplicates_default|].
  split; [apply no_duplicates_add_preference|].
  split; [apply no_duplicates_record_interaction|].
  split; [apply add_preference_idempotent|].
  intros self g l Hinv Hl. rewrite add_preference_idempotent.
  pose proof (no_duplicates_add_preference self "genres" g Hinv) as [Hp _].
  revert Hp. rewrite add_preference_preferences, Hl.
  case_bool_decide as Hg; intros Hp.
  - exists l. split; [done|]. apply NoDup_one_occurrence; [|done].
    by eapply Hp.
  - exists (l ++ [g]). rewrite lookup_insert_eq. split; [done|].
    apply NoDup_one_occurrence.
    + eapply Hp. apply lookup_insert_eq.
    + apply elem_of_app. right. by apply list_elem_of_singleton.
Qed.

Lemma no_duplicates_invariant_witness :
  no_duplicates
    (user_data
       (record_interaction (add_preference (fresh_engine []) "genres" "scifi")
          "t" "A" "bookmarked" None)).
Proof.
  apply (proj1 (proj2 (proj2 no_duplicates_invariant))).
  apply (proj1 (proj2 no_duplicates_invariant)).
  apply (proj1 no_duplicates_invariant).
Defined.

(** The categories of the default document. *)
Lemma default_preferences_keys (now c : string) :
  c ∉ ["genres"; "authors"; "themes"; "reading_level"; "format_preference"] ->
  preferences (default_user_data now) !! c = None.
Proof.
  intros Hc. simpl.
  repeat (rewrite lookup_insert_ne;
          [|intros <-; apply Hc; apply list_elem_of_In; simpl; tauto]).
  apply lookup_empty.
Qed.

(** C10.  [add_preference] with a category that is no key of the
    preferences mapping changes nothing in the user's document (preferences,
    history, ratings, bookmarks, creation time) nor in the catalog, and the
    file then holds that unchanged document. *)
Theorem add_preference_unknown_category (self : PersonalizationEngine)
    (category value : string) :
  preferences (user_data self) !! category = None ->
  user_data (add_preference self category value) = user_data self /\
  catalog (add_preference self category value) = catalog self /\
  user_file (add_preference self category value) = Some (user_data self).
Proof. intros Hc. unfold add_preference. rewrite Hc. done. Qed.

Lemma add_preference_unknown_category_witness :
  user_data (add_preference (fresh_engine [book_A]) "mood" "calm")
  = user_data (fresh_engine [book_A]) /\
  catalog (add_preference (fresh_engine [book_A]) "mood" "calm")
  = catalog (fresh_engine [book_A]) /\
  user_file (add_preference (fresh_engine [book_A]) "mood" "calm")
  = Some (user_data (fresh_engine [book_A])).
Proof.
  apply add_preference_unknown_category.
  apply default_preferences_keys.
  intros H. apply list_elem_of_In in H. simpl in H.
  repeat (destruct H as [H|H]; [discriminate|]). done.
Defined.

(** ** Analysis of an empty history *)

(** C8.  With an empty history [analyze_preferences] returns the fixed
    report, whose only suggestion is the generic one; it returns (the
    function is total), it hands no id to the catalog lookup, and the
    report is the same whatever the catalog. *)
Theorem analyze_preferences_empty_history (round2 : Q -> Q)
    (self : PersonalizationEngine) :
  history (user_data self) = [] ->
  analyze_preferences round2 self = insufficient_data_report /\
  snd (analyze_preferences_log round2 self) = [] /\
  (forall c, analyze_preferences round2 (with_catalog self c)
             = analyze_preferences round2 self).
Proof.
  intros Hh. unfold analyze_preferences, analyze_preferences_log. simpl.
  by rewrite Hh.
Qed.

Lemma analyze_preferences_empty_history_witness :
  analyze_preferences (fun q => q) (fresh_engine [book_A; book_B])
  = insufficient_data_report /\
  snd (analyze_preferences_log (fun q => q) (fresh_engine [book_A; book_B])) = [] /\
  (forall c, analyze_preferences (fun q => q)
               (with_catalog (fresh_engine [book_A; book_B]) c)
             = analyze_preferences (fun q => q) (fresh_engine [book_A; book_B])).
Proof.
  apply (analyze_preferences_empty_history (fun q => q)
           (fresh_engine [book_A; book_B])).
  reflexivity.
Defined.

(** With a history the catalog is consulted once per interaction. *)
Lemma analyze_preferences_lookups (round2 : Q -> Q) (self : PersonalizationEngine) :
  snd (analyze_preferences_log round2 self) = interacted_ids self.
Proof.
  unfold analyze_preferences_log, interacted_ids.
  assert (forall hist gc lu,
    snd (fold_left (count_genres_step self) hist (gc, lu))
    = lu ++ map book_id hist) as Hfold.
  { induction hist as [|h hist IH]; intros gc lu; simpl.
    - by rewrite app_nil_r.
    - destruct (_get_book_by_id self (book_id h)); rewrite IH;
        by rewrite <- app_assoc. }
  destruct (history (user_data self)) as [|h hist] eqn:Hh; [done|].
  specialize (Hfold (h :: hist) [] []).
  destruct (fold_left (count_genres_step self) (h :: hist) ([], [])) as [gc lu].
  simpl in *. done.
Qed.

(** ** Continue reading *)

Lemma started_unfinished_spec (self : PersonalizationEngine) (h : Interaction) :
  started_unfinished self h = true <->
  action h = "started" /\
  forall h', h' ∈ history (user_data self) ->
    book_id h' = book_id h -> action h' <> "completed".
Proof.
  unfold started_unfinished.
  rewrite andb_true_iff, bool_decide_eq_true, negb_true_iff.
  split; intros [Hs Hc]; (split; [done|]).
  - intros h' Hin Hid Hact.
    assert (existsb
              (fun h' => bool_decide (book_id h' = book_id h)
                         && bool_decide (action h' = "completed"))
              (history (user_data self)) = true) as Hex; [|congruence].
    apply existsb_exists. exists h'. split; [by apply list_elem_of_In|].
    apply andb_true_iff. by rewrite !bool_decide_eq_true.
  - apply not_true_is_false. intros Hex. apply existsb_exists in Hex.
    destruct Hex as (h' & Hin & Hb). apply andb_true_iff in Hb.
    rewrite !bool_decide_eq_true in Hb. destruct Hb as [Hid Hact].
    apply list_elem_of_In in Hin. by apply (Hc h').
Qed.

(** [_get_book_by_id] returns the first book of the catalog with the id. *)
Lemma _get_book_by_id_Some (self : PersonalizationEngine) (bid : string) (b : Book) :
  _get_book_by_id self bid = Some b ->
  b ∈ books (catalog self) /\ b_id b = Some bid.
Proof.
  unfold _get_book_by_id. intros H. apply find_some in H as [Hin Hid].
  split; [by apply list_elem_of_In | by apply bool_decide_eq_true in Hid].
Qed.

Lemma _get_book_by_id_None (self : PersonalizationEngine) (bid : string) :
  _get_book_by_id self bid = None <->
  forall b, b ∈ books (catalog self) -> b_id b <> Some bid.
Proof.
  unfold _get_book_by_id. split.
  - intros H b Hb Hid. apply list_elem_of_In in Hb.
    pose proof (find_none _ _ H b Hb) as Hn. simpl in Hn.
    by apply bool_decide_eq_false in Hn.
  - intros H. destruct (List.find _ _) as [b|] eqn:Hf; [|done].
    apply find_some in Hf as [Hin Hid]. apply bool_decide_eq_true in Hid.
    apply list_elem_of_In in Hin. by destruct (H b Hin).
Qed.

Lemma _get_continue_reading_unfold (self : PersonalizationEngine) :
  _get_continue_reading self = take 3 (continue_reading_entries self).
Proof.
  unfold _get_continue_reading, continue_reading_entries. cbv zeta. f_equal.
  match goal with |- fold_left ?F _ _ = omap ?G _ => set (f := F); set (g := G) end.
  rewrite <- (app_nil_l (omap g _)). generalize (@nil Book).
  generalize (history (user_data self)).
  intros hs. induction hs as [|h hs IH]; intros acc; simpl.
  - by rewrite app_nil_r.
  - rewrite IH. unfold f, g, started_unfinished.
    destruct (bool_decide (action h = "started")); simpl; [|done].
    destruct (existsb _ _); simpl; [done|].
    destruct (_get_book_by_id self (book_id h)); [by rewrite <- app_assoc | done].
Qed.

Lemma elem_of_continue_reading_entries (self : PersonalizationEngine) (b : Book) :
  b ∈ continue_reading_entries self <->
  exists h, h ∈ history (user_data self) /\
    action h = "started" /\
    (forall h', h' ∈ history (user_data self) ->
       book_id h' = book_id h -> action h' <> "completed") /\
    _get_book_by_id self (book_id h) = Some b.
Proof.
  unfold continue_reading_entries. rewrite list_elem_of_omap.
  split; intros (h & Hin & H); exists h; (split; [done|]).
  - destruct (started_unfinished self h) eqn:Hs; [|done].
    apply started_unfinished_spec in Hs as [Hs Hc]. done.
  - destruct H as (Hs & Hc & Hb).
    rewrite (proj2 (started_unfinished_spec self h)); done.
Qed.

(** C4 (amended).  [continue_reading] holds, in history order and cut to
    3, one catalog entry for each "started" interaction whose id no
    interaction of the history completes; an interaction whose id is not in
    the catalog gives no entry.  The entry is the first book of the catalog
    with that id.  Nothing removes repetitions: a book started twice is
    listed twice. *)
Theorem continue_reading_per_started_interaction (self : PersonalizationEngine) :
  (forall fromisoformat now stamp,
     continue_reading (generate_personalized_feed fromisoformat now stamp self)
     = take 3 (continue_reading_entries self)) /\
  (forall b, b ∈ continue_reading_entries self <->
     exists h, h ∈ history (user_data self) /\
       action h = "started" /\
       (forall h', h' ∈ history (user_data self) ->
          book_id h' = book_id h -> action h' <> "completed") /\
       _get_book_by_id self (book_id h) = Some b) /\
  (forall bid b, _get_book_by_id self bid = Some b ->
     b ∈ books (catalog self) /\ b_id b = Some bid) /\
  (forall bid, _get_book_by_id self bid = None <->
     forall b, b ∈ books (catalog self) -> b_id b <> Some bid).
Proof.
  split; [intros; apply _get_continue_reading_unfold|].
  split; [apply elem_of_continue_reading_entries|].
  split; [apply _get_book_by_id_Some | apply _get_book_by_id_None].
Qed.

Lemma continue_reading_not_deduplicated :
  let feed :=
    generate_personalized_feed parse_2999 (9000 * day_us) "2024-08-22T00:00:00"
      started_twice in
  continue_reading feed = [book_A; book_A] /\
  ~ NoDup (map b_id (continue_reading feed)).
Proof.
  intros feed.
  assert (continue_reading feed = [book_A; book_A]) as E by reflexivity.
  split; [done|]. rewrite E. simpl. intros H.
  apply NoDup_cons in H as [H _]. apply H. by left.
Qed.

(** ** New in the preferred genres *)

Section NewInGenres.
Variable fromisoformat : string -> option datetime.
Variable now : Z.

Lemma _get_new_in_preferred_genres_unfold (self : PersonalizationEngine) :
  _get_new_in_preferred_genres fromisoformat now self
  = take 5 (List.filter (is_new_in_genres fromisoformat now self) (books (catalog self))).
Proof.
  unfold _get_new_in_preferred_genres. cbv zeta. f_equal.
  match goal with |- fold_left ?F _ _ = _ => set (f := F) end.
  rewrite <- (app_nil_l (List.filter _ _)). generalize (@nil Book).
  induction (books (catalog self)) as [|b bs IH]; intros acc; simpl.
  - by rewrite app_nil_r.
  - rewrite IH. unfold f, is_new_in_genres.
    destruct (existsb _ _); simpl; [|done].
    destruct (b_added_date b) as [d|]; simpl; [|done].
    destruct (String.eqb d EmptyString); simpl; [done|].
    destruct (fromisoformat d) as [[t|t o]|]; try done.
    destruct (timedelta_days now t <=? 30); [by rewrite <- app_assoc | done].
Qed.

(** [days <= 30] holds up to, and not including, 31 days of age; it puts
    no bound on dates that lie ahead of the clock. *)
Lemma timedelta_days_le_30 (t : Z) :
  timedelta_days now t <= 30 <-> now - t < 31 * day_us.
Proof.
  unfold timedelta_days, day_us. split; intros H.
  - apply Z.nle_gt. intros Hge.
    assert (31 <= (now - t) / 86400000000); [|lia].
    apply Z.div_le_lower_bound; lia.
  - assert ((now - t) / 86400000000 < 31); [|lia].
    apply Z.div_lt_upper_bound; lia.
Qed.

(** A book without [added_date], or with one that does not parse, is left
    out, and the function returns all the same. *)
Lemma new_in_genres_excludes_unparseable (self : PersonalizationEngine) (b : Book) :
  b ∈ _get_new_in_preferred_genres fromisoformat now self ->
  exists d t, b_added_date b = Some d /\ fromisoformat d = Some (Naive t).
Proof.
  rewrite _get_new_in_preferred_genres_unfold. intros Hb.
  apply subseteq_take in Hb. apply list_elem_of_In in Hb.
  apply filter_In in Hb as [_ Hb]. unfold is_new_in_genres in Hb.
  apply andb_true_iff in Hb as [_ Hb].
  destruct (b_added_date b) as [d|]; [|done].
  apply andb_true_iff in Hb as [_ Hb].
  destruct (fromisoformat d) as [[t|t o]|] eqn:Hp; try done. by exists d, t.
Qed.
End NewInGenres.

(** C7 (the code at a date in the future).  Whatever instant the text
    "2999-01-01" parses to, as long as it lies ahead of the clock the book
    is listed under [new_in_genres]: the number of days elapsed is
    negative, hence at most 30. *)
Theorem new_in_genres_keeps_future_date
    (fromisoformat : string -> option datetime) (now t : Z) (stamp : string) :
  fromisoformat "2999-01-01" = Some (Naive t) ->
  now < t ->
  new_in_genres
    (generate_personalized_feed fromisoformat now stamp (scifi_engine [future_book]))
  = [future_book].
Proof.
  intros Hparse Hlt. unfold generate_personalized_feed, new_in_genres.
  rewrite _get_new_in_preferred_genres_unfold.
  assert (is_new_in_genres fromisoformat now (scifi_engine [future_book])
            future_book = true) as Hnew.
  { unfold is_new_in_genres. apply andb_true_iff. split; [reflexivity|].
    change (b_added_date future_book) with (Some "2999-01-01").
    cbv beta iota. rewrite Hparse. simpl.
    apply Z.leb_le. apply timedelta_days_le_30. unfold day_us. lia. }
  simpl. by rewrite Hnew.
Qed.

Lemma new_in_genres_keeps_future_date_witness :
  new_in_genres
    (generate_personalized_feed parse_2999 (9000 * day_us) "2024-08-22T00:00:00"
       (scifi_engine [future_book]))
  = [future_book].
Proof.
  apply (new_in_genres_keeps_future_date parse_2999 (9000 * day_us)
           (364878 * day_us)).
  - reflexivity.
  - reflexivity.
Defined.

(** * Further properties of the engine *)

(** ** Sorting on any key *)

Section RankSpec.
Context {A K : Type} (key : A -> K) (ltb : K -> K -> bool).
Hypothesis ltb_asym : forall x y, ltb x y = true -> ltb y x = false.
Hypothesis ltb_negtrans :
  forall x y z, ltb x y = false -> ltb y z = false -> ltb x z = false.

Lemma insert_desc_perm (x : A) (l : list A) :
  Permutation (insert_desc key ltb x l) (x :: l).
Proof.
  induction l as [|y l IH]; simpl; [done|].
  destruct (ltb (key x) (key y)); [|done].
  rewrite IH. apply perm_swap.
Qed.

Lemma py_sort_desc_perm (l : list A) : Permutation (py_sort_desc key ltb l) l.
Proof.
  induction l as [|x l IH]; simpl; [done|].
  rewrite insert_desc_perm. by constructor.
Qed.

Lemma insert_desc_ranked (x : A) (l : list A) :
  StronglySorted (not_below key ltb) l ->
  StronglySorted (not_below key ltb) (insert_desc key ltb x l).
Proof.
  induction 1 as [|y l Hs IH Hy]; simpl.
  - repeat constructor.
  - destruct (ltb (key x) (key y)) eqn:Hxy.
    + constructor; [done|]. rewrite insert_desc_perm.
      constructor; [by apply ltb_asym | done].
    + constructor; [by constructor|]. constructor; [done|].
      eapply Forall_impl; [exact Hy|]. intros z Hz.
      by apply (ltb_negtrans _ (key y)).
Qed.

Lemma insert_desc_same_rank (k : K) (x : A) (l : list A) :
  List.filter (same_rank key ltb k) (insert_desc key ltb x l)
  = List.filter (same_rank key ltb k) (x :: l).
Proof.
  induction l as [|y l IH]; simpl; [done|].
  destruct (ltb (key x) (key y)) eqn:Hxy; [|done].
  simpl. rewrite IH. simpl. unfold same_rank.
  destruct (ltb (key x) k) eqn:Hxk, (ltb k (key x)) eqn:Hkx,
    (ltb (key y) k) eqn:Hyk, (ltb k (key y)) eqn:Hky; simpl; try done.
  rewrite (ltb_negtrans _ _ _ Hxk Hky) in Hxy. done.
Qed.

Lemma py_sort_desc_ranking (l : list A) :
  is_stable_ranking key ltb l (py_sort_desc key ltb l).
Proof.
  split; [|split; [apply py_sort_desc_perm|]].
  - induction l as [|x l IH]; simpl; [constructor|]. by apply insert_desc_ranked.
  - intros k. induction l as [|x l IH]; simpl; [done|].
    rewrite insert_desc_same_rank. simpl. by rewrite IH.
Qed.
End RankSpec.

(** The two orders the popularity rankings use. *)
Lemma Qltb_lt (x y : Q) : Qltb x y = true <-> (x < y)%Q.
Proof.
  unfold Qltb. rewrite negb_true_iff. split.
  - intros H. apply Qnot_le_lt. intros Hle.
    apply Qle_bool_iff in Hle. congruence.
  - intros H. apply not_true_is_false. intros Hle.
    apply Qle_bool_iff in Hle. by apply (Qlt_not_le x y).
Qed.

Lemma Qltb_ge (x y : Q) : Qltb x y = false <-> (y <= x)%Q.
Proof.
  unfold Qltb. rewrite negb_false_iff. apply Qle_bool_iff.
Qed.

Lemma Qltb_asym (x y : Q) : Qltb x y = true -> Qltb y x = false.
Proof. rewrite Qltb_lt, Qltb_ge. apply Qlt_le_weak. Qed.

Lemma Qltb_negtrans (x y z : Q) :
  Qltb x y = false -> Qltb y z = false -> Qltb x z = false.
Proof. rewrite !Qltb_ge. intros H1 H2. by apply (Qle_trans _ y). Qed.

Lemma pair_ltb_lt (x y : Q * Q) :
  pair_ltb x y = true <->
  (fst x < fst y)%Q \/ (fst x == fst y /\ snd x < snd y)%Q.
Proof.
  unfold pair_ltb. destruct (Qeq_bool (fst x) (fst y)) eqn:He.
  - apply Qeq_bool_iff in He. rewrite Qltb_lt. split; [by right|].
    intros [Hlt|[_ Hlt]]; [|done]. rewrite He in Hlt.
    by apply Qlt_irrefl in Hlt.
  - apply Qeq_bool_neq in He. rewrite Qltb_lt. split; [by left|].
    intros [Hlt|[Heq _]]; done.
Qed.

Lemma pair_ltb_ge (x y : Q * Q) :
  pair_ltb x y = false <->
  (fst y < fst x)%Q \/ (fst x == fst y /\ snd y <= snd x)%Q.
Proof.
  unfold pair_ltb. destruct (Qeq_bool (fst x) (fst y)) eqn:He.
  - apply Qeq_bool_iff in He. rewrite Qltb_ge. split; [by right|].
    intros [Hlt|[_ Hle]]; [|done]. rewrite He in Hlt.
    by apply Qlt_irrefl in Hlt.
  - apply Qeq_bool_neq in He. rewrite Qltb_ge. split.
    + intros Hle. left. apply Qle_lt_or_eq in Hle as [Hlt|Heq]; [done|].
      by destruct He.
    + intros [Hlt|[Heq _]]; [by apply Qlt_le_weak | done].
Qed.

Lemma pair_ltb_asym (x y : Q * Q) : pair_ltb x y = true -> pair_ltb y x = false.
Proof.
  rewrite pair_ltb_lt, pair_ltb_ge. intros [H|[H1 H2]]; [by left|].
  right. split; [by symmetry | by apply Qlt_le_weak].
Qed.

Lemma pair_ltb_negtrans (x y z : Q * Q) :
  pair_ltb x y = false -> pair_ltb y z = false -> pair_ltb x z = false.
Proof.
  rewrite !pair_ltb_ge. intros [H1|[H1 H1']] [H2|[H2 H2']].
  - left. by apply (Qlt_trans _ (fst y)).
  - left. by rewrite <- H2.
  - left. by rewrite H1.
  - right. split; [by rewrite H1 | by apply (Qle_trans _ (snd y))].
Qed.

(** ** The head of a ranking *)

Lemma StronglySorted_app_elem {A : Type} (R : A -> A -> Prop) (l1 l2 : list A)
    (x1 x2 : A) :
  StronglySorted R (l1 ++ l2) -> x1 ∈ l1 -> x2 ∈ l2 -> R x1 x2.
Proof.
  induction l1 as [|y l1 IH]; simpl; intros Hs H1 H2.
  - by apply elem_of_nil in H1.
  - apply StronglySorted_inv in Hs as [Hs Hy].
    apply elem_of_cons in H1 as [->|H1]; [|by apply IH].
    rewrite List.Forall_forall in Hy. apply Hy, in_or_app. right.
    by apply list_elem_of_In.
Qed.

(** Whatever is cut off a ranking stands after everything that is kept. *)
Lemma take_ranked_top {A : Type} (R : A -> A -> Prop) (l : list A) (n : nat)
    (b b' : A) :
  StronglySorted R l -> b ∈ take n l -> b' ∈ l -> b' ∈ take n l \/ R b b'.
Proof.
  intros Hs Hb Hb'. rewrite <- (take_drop n l) in Hs, Hb'.
  apply elem_of_app in Hb' as [Hb'|Hb']; [by left|]. right.
  by apply (StronglySorted_app_elem R (take n l) (drop n l)).
Qed.

Lemma StronglySorted_list_filter {A : Type} (R : A -> A -> Prop) (f : A -> bool)
    (l : list A) :
  StronglySorted R l -> StronglySorted R (List.filter f l).
Proof.
  induction 1 as [|x l Hs IH Hx]; simpl; [constructor|].
  destruct (f x); [|done]. constructor; [done|].
  rewrite List.Forall_forall in *. intros y Hy. apply Hx.
  by apply filter_In in Hy as [Hy _].
Qed.

(** ** Trending and the popularity ranking *)

(** X2.  [_get_trending] returns the first five books of the catalog ranked by
    [recent_views] (0 when absent), books with equal views in catalog
    order; so it holds at most five books, and a catalog book with more
    views than a listed one is listed too. *)
Theorem _get_trending_top_views (self : PersonalizationEngine) :
  (exists ranked,
     is_stable_ranking views_key Qltb (books (catalog self)) ranked /\
     _get_trending self = take 5 ranked) /\
  (length (_get_trending self) <= 5)%nat /\
  (forall b, b ∈ _get_trending self -> b ∈ books (catalog self)) /\
  (forall b b', b ∈ _get_trending self -> b' ∈ books (catalog self) ->
     (views_key b < views_key b')%Q -> b' ∈ _get_trending self).
Proof.
  pose proof (py_sort_desc_ranking views_key Qltb Qltb_asym Qltb_negtrans
                (books (catalog self))) as Hr.
  unfold _get_trending. cbv zeta. fold views_key.
  destruct Hr as (Hs & Hp & Hf).
  split; [eexists; split; [split; [exact Hs|split; [exact Hp|exact Hf]]|done]|].
  split; [rewrite length_take; lia|]. split.
  - intros b Hb. apply subseteq_take in Hb. by rewrite Hp in Hb.
  - intros b b' Hb Hb' Hlt. rewrite <- Hp in Hb'.
    destruct (take_ranked_top _ _ 5 b b' Hs Hb Hb') as [Hin|Hnb]; [done|].
    unfold not_below in Hnb. apply Qltb_ge in Hnb.
    by apply Qlt_not_le in Hlt.
Qed.

(** X3.  [_get_default_recommendations] returns the first [n] books of the
    catalog ranked by the pair (average rating, popularity), both 0 when
    absent, the rating first; ties keep catalog order.  An empty catalog
    gives the empty list, and a catalog book that ranks above a returned
    one is returned too. *)
Theorem _get_default_recommendations_ranked (self : PersonalizationEngine) (n : nat) :
  (exists ranked,
     is_stable_ranking popularity_key pair_ltb (books (catalog self)) ranked /\
     _get_default_recommendations self n = take n ranked) /\
  (length (_get_default_recommendations self n) <= n)%nat /\
  (forall b, b ∈ _get_default_recommendations self n -> b ∈ books (catalog self)) /\
  (forall b b', b ∈ _get_default_recommendations self n ->
     b' ∈ books (catalog self) ->
     pair_ltb (popularity_key b) (popularity_key b') = true ->
     b' ∈ _get_default_recommendations self n).
Proof.
  pose proof (py_sort_desc_ranking popularity_key pair_ltb pair_ltb_asym
                pair_ltb_negtrans (books (catalog self))) as Hr.
  assert (_get_default_recommendations self n
          = take n (py_sort_desc popularity_key pair_ltb (books (catalog self))))
    as ->.
  { unfold _get_default_recommendations. cbv zeta.
    destruct (books (catalog self)); [by destruct n | done]. }
  destruct Hr as (Hs & Hp & Hf).
  split; [eexists; split; [split; [exact Hs|split; [exact Hp|exact Hf]]|done]|].
  split; [rewrite length_take; lia|]. split.
  - intros b Hb. apply subseteq_take in Hb. by rewrite Hp in Hb.
  - intros b b' Hb Hb' Hlt. rewrite <- Hp in Hb'.
    destruct (take_ranked_top _ _ n b b' Hs Hb Hb') as [Hin|Hnb]; [done|].
    unfold not_below in Hnb. congruence.
Qed.

(** ** More on recommendations *)

Lemma length_remove_dups_le (l : list string) :
  (length (remove_dups l) <= length l)%nat.
Proof.
  induction l as [|x l IH]; simpl; [done|].
  destruct (decide_rel elem_of x l); simpl; lia.
Qed.

Lemma common_le_length (xs ys : list string) : 0 <= common xs ys <= Z.of_nat (length xs).
Proof.
  unfold common. split; [lia|].
  pose proof (length_filter (fun x => x ∈ ys) (remove_dups xs)).
  pose proof (length_remove_dups_le xs). lia.
Qed.

(** The unread books of the catalog, best score first. *)
Lemma get_recommendations_all (self : PersonalizationEngine) :
  get_recommendations self (length (books (catalog self)))
  = List.filter (not_interacted self)
      (py_sort_desc (_calculate_relevance_score self) Z.ltb (books (catalog self))).
Proof.
  rewrite get_recommendations_unfold. apply take_ge.
  etransitivity; [apply filter_length_le|].
  by rewrite (Permutation_length (py_sort_desc_Permutation _ _)).
Qed.

(** X4.  The list returned is in descending order of the score, and no unread
    book of the catalog with a higher score than a returned book is left
    out. *)
Theorem get_recommendations_best_first (self : PersonalizationEngine) (n : nat) :
  StronglySorted (desc (_calculate_relevance_score self))
    (get_recommendations self n) /\
  (forall b b', b ∈ get_recommendations self n -> b' ∈ books (catalog self) ->
     not_interacted self b' = true ->
     _calculate_relevance_score self b < _calculate_relevance_score self b' ->
     b' ∈ get_recommendations self n).
Proof.
  rewrite get_recommendations_unfold.
  destruct (py_sort_desc_stable (_calculate_relevance_score self)
              (books (catalog self))) as [Hs _].
  apply (StronglySorted_list_filter _ (not_interacted self)) in Hs.
  split.
  - rewrite <- (take_drop n) in Hs. clear -Hs.
    revert Hs. generalize (drop n (List.filter (not_interacted self)
      (py_sort_desc (_calculate_relevance_score self) Z.ltb (books (catalog self))))).
    generalize (take n (List.filter (not_interacted self)
      (py_sort_desc (_calculate_relevance_score self) Z.ltb (books (catalog self))))).
    intros l1 l2. induction l1 as [|x l1 IH]; simpl; intros Hs; [constructor|].
    apply StronglySorted_inv in Hs as [Hs Hx]. constructor; [by apply IH|].
    rewrite List.Forall_forall in *. intros y Hy. apply Hx, in_or_app. by left.
  - intros b b' Hb Hb' Hun Hlt.
    assert (b' ∈ List.filter (not_interacted self)
              (py_sort_desc (_calculate_relevance_score self) Z.ltb
                 (books (catalog self)))) as Hin.
    { apply list_elem_of_In, filter_In. split; [|done].
      apply list_elem_of_In. by rewrite py_sort_desc_Permutation. }
    destruct (take_ranked_top _ _ n b b' Hs Hb Hin) as [?|Hd]; [done|].
    unfold desc in Hd. lia.
Qed.

(** X5.  Asking for fewer books gives the head of the longer list. *)
Theorem get_recommendations_prefix (self : PersonalizationEngine) (n m : nat) :
  (n <= m)%nat ->
  get_recommendations self n = take n (get_recommendations self m).
Proof.
  intros Hnm. rewrite !get_recommendations_unfold, take_take.
  by rewrite Nat.min_l.
Qed.

Lemma get_recommendations_prefix_witness :
  get_recommendations (scifi_engine [book_B; book_A]) 1
  = take 1 (get_recommendations (scifi_engine [book_B; book_A]) 2).
Proof. apply get_recommendations_prefix. lia. Defined.

(** X6.  Nothing is recommended exactly when nothing is asked for or every book
    of the catalog carries an id that occurs in the history (an empty
    catalog in particular). *)
Theorem get_recommendations_nil_iff (self : PersonalizationEngine) (n : nat) :
  get_recommendations self n = [] <->
  n = 0%nat \/ forall b, b ∈ books (catalog self) -> not_interacted self b = false.
Proof.
  rewrite get_recommendations_unfold. split.
  - intros H. apply take_nil_inv in H as [H|H]; [by left | right].
    intros b Hb. destruct (not_interacted self b) eqn:Hn; [|done].
    assert (In b []) as []. rewrite <- H. apply filter_In. split; [|done].
    apply list_elem_of_In. by rewrite py_sort_desc_Permutation.
  - intros [->|H]; [done|].
    assert (List.filter (not_interacted self)
              (py_sort_desc (_calculate_relevance_score self) Z.ltb
                 (books (catalog self))) = []) as ->; [|by destruct n].
    destruct (List.filter _ _) as [|b l] eqn:Hf; [done|].
    assert (In b (b :: l)) as Hb by by left. rewrite <- Hf in Hb.
    apply filter_In in Hb as [Hb Hn]. apply list_elem_of_In in Hb.
    rewrite py_sort_desc_Permutation in Hb. rewrite (H b Hb) in Hn. done.
Qed.

(** ** Recording an interaction *)

Lemma filter_filter_andb {A : Type} (f g : A -> bool) (l : list A) :
  List.filter f (List.filter g l) = List.filter (fun x => g x && f x) l.
Proof.
  induction l as [|x l IH]; simpl; [done|].
  destruct (g x); simpl; [destruct (f x); by rewrite IH | done].
Qed.

Lemma not_interacted_record_interaction (self : PersonalizationEngine)
    (now i act : string) (r : option Z) (b : Book) :
  not_interacted (record_interaction self now i act r) b
  = not_interacted self b && negb (bool_decide (b_id b = Some i)).
Proof.
  unfold not_interacted, interacted_ids. simpl.
  destruct (b_id b) as [j|]; [|done].
  rewrite map_app. simpl.
  destruct (bool_decide (Some j = Some i)) eqn:Hji.
  - apply bool_decide_eq_true in Hji. injection Hji as ->. rewrite andb_false_r.
    apply bool_decide_eq_false. intros H. apply H, elem_of_app. right.
    by apply list_elem_of_singleton.
  - apply bool_decide_eq_false in Hji. rewrite andb_true_r.
    apply bool_decide_ext. rewrite elem_of_app, list_elem_of_singleton.
    split; [tauto|]. intros H [? | ->]; [tauto|done].
Qed.

(** X7.  Recording an interaction with a book, whatever the action, changes no
    score; the recommendations afterwards are the earlier ones without the
    books of that id, and never hold a book of that id. *)
Theorem recommendations_after_interaction (self : PersonalizationEngine)
    (now i act : string) (r : option Z) (n : nat) :
  let self' := record_interaction self now i act r in
  (forall b, _calculate_relevance_score self' b = _calculate_relevance_score self b) /\
  get_recommendations self' n
  = take n (List.filter (fun b => negb (bool_decide (b_id b = Some i)))
              (get_recommendations self (length (books (catalog self))))) /\
  (forall b, b ∈ get_recommendations self' n -> b_id b <> Some i).
Proof.
  intros self'.
  assert (get_recommendations self' n
    = take n (List.filter (fun b => negb (bool_decide (b_id b = Some i)))
                (get_recommendations self (length (books (catalog self)))))) as E.
  { rewrite get_recommendations_unfold, get_recommendations_all.
    rewrite filter_filter_andb. f_equal.
    change (books (catalog self')) with (books (catalog self)).
    change (_calculate_relevance_score self') with (_calculate_relevance_score self).
    apply filter_ext. intros b. apply not_interacted_record_interaction. }
  split; [done|]. split; [done|].
  intros b Hb. rewrite E in Hb. apply subseteq_take in Hb.
  apply list_elem_of_In, filter_In in Hb as [_ Hb].
  apply negb_true_iff, bool_decide_eq_false in Hb. done.
Qed.

(** X8.  [record_interaction] and the ratings: the interaction is appended to
    the history whatever the rating; a missing rating or a rating of 0
    leaves the ratings as they are, any other integer is stored under the
    id without a range check, and no other id's rating changes. *)
Theorem record_interaction_rating_stored (self : PersonalizationEngine)
    (now i act : string) (r : option Z) :
  let self' := record_interaction self now i act r in
  history (user_data self')
  = history (user_data self) ++ [new_interaction now i act r] /\
  (r = None \/ r = Some 0 ->
   ratings (user_data self') = ratings (user_data self)) /\
  (forall z, r = Some z -> z <> 0 -> ratings (user_data self') !! i = Some z) /\
  (forall j, j <> i ->
   ratings (user_data self') !! j = ratings (user_data self) !! j) /\
  preferences (user_data self') = preferences (user_data self) /\
  user_file self' = Some (user_data self').
Proof.
  intros self'. split; [done|]. split; [|split; [|split; [|done]]].
  - intros [->| ->]; done.
  - intros z -> Hz. simpl. destruct (Z.eqb_spec z 0); [done|]. simpl.
    apply lookup_insert_eq.
  - intros j Hj. simpl. destruct r as [z|]; [|done]. simpl.
    destruct (z =? 0); simpl; [done|]. by apply lookup_insert_ne.
Qed.

(** X9.  [record_interaction] and the bookmarks: only the action "bookmarked"
    touches them; it puts the id in if it is not there yet, a second
    bookmark of the same id changes nothing, and no call ever removes or
    reorders a bookmark. *)
Theorem record_interaction_bookmarks (self : PersonalizationEngine)
    (now now' i act : string) (r r' : option Z) :
  let self' := record_interaction self now i act r in
  (act <> "bookmarked" -> bookmarks (user_data self') = bookmarks (user_data self)) /\
  (act = "bookmarked" -> i ∈ bookmarks (user_data self')) /\
  bookmarks (user_data self) `prefix_of` bookmarks (user_data self') /\
  (act = "bookmarked" ->
   bookmarks (user_data (record_interaction self' now' i act r'))
   = bookmarks (user_data self')) /\
  (NoDup (bookmarks (user_data self)) -> NoDup (bookmarks (user_data self'))).
Proof.
  intros self'. subst self'. simpl.
  split; [intros Hn; by rewrite bool_decide_false by done|].
  split; [|split; [|split]].
  - intros ->. rewrite bool_decide_true by done. case_bool_decide; [done|].
    apply elem_of_app. right. by apply list_elem_of_singleton.
  - case_bool_decide; [|done]. case_bool_decide; [done|]. by apply prefix_app_r.
  - intros ->. rewrite !bool_decide_true by done.
    destruct (decide (i ∈ bookmarks (user_data self))) as [Hi|Hi].
    + by rewrite !(bool_decide_true (i ∈ bookmarks (user_data self))) by done.
    + rewrite !(bool_decide_false (i ∈ bookmarks (user_data self))) by done.
      rewrite bool_decide_true; [done|].
      apply elem_of_app. right. by apply list_elem_of_singleton.
  - intros Hnd. case_bool_decide; [|done]. case_bool_decide; [done|].
    by apply NoDup_snoc_fresh.
Qed.


(** ** Catalog lookup *)

(** X1.  [_get_book_by_id] returns the first book of the catalog that carries
    the id, and nothing exactly when no book carries it. *)
Theorem _get_book_by_id_first_match (self : PersonalizationEngine) (bid : string) :
  match _get_book_by_id self bid with
  | Some b =>
      exists pre post,
        books (catalog self) = pre ++ b :: post /\
        b_id b = Some bid /\
        forall b', b' ∈ pre -> b_id b' <> Some bid
  | None => forall b, b ∈ books (catalog self) -> b_id b <> Some bid
  end.
Proof.
  unfold _get_book_by_id. induction (books (catalog self)) as [|x l IH]; simpl.
  - intros b Hb. by apply elem_of_nil in Hb.
  - case_bool_decide as Hx.
    + exists [], l. repeat split; [done|]. intros b' Hb'. by apply elem_of_nil in Hb'.
    + destruct (List.find _ l) as [b|].
      * destruct IH as (pre & post & -> & Hb & Hpre).
        exists (x :: pre), post. repeat split; [done|].
        intros b' Hb'. apply elem_of_cons in Hb' as [->|Hb']; [done|by apply Hpre].
      * intros b Hb. apply elem_of_cons in Hb as [->|Hb]; [done|by apply IH].
Qed.

(** ** More on the feed *)

Lemma list_filter_sublist {A : Type} (f : A -> bool) (l : list A) :
  List.filter f l `sublist_of` l.
Proof.
  induction l as [|x l IH]; simpl; [done|].
  destruct (f x); [by apply sublist_skip | by apply sublist_cons].
Qed.

Lemma _get_trending_subseteq (self : PersonalizationEngine) (b : Book) :
  b ∈ _get_trending self -> b ∈ books (catalog self).
Proof.
  unfold _get_trending. cbv zeta. intros Hb. apply subseteq_take in Hb.
  by rewrite py_sort_desc_perm in Hb.
Qed.

Lemma get_recommendations_subseteq (self : PersonalizationEngine) (n : nat) (b : Book) :
  b ∈ get_recommendations self n -> b ∈ books (catalog self).
Proof.
  rewrite get_recommendations_unfold. intros Hb. apply subseteq_take in Hb.
  apply list_elem_of_In, filter_In in Hb as [Hb _]. apply list_elem_of_In in Hb.
  by rewrite py_sort_desc_Permutation in Hb.
Qed.

Lemma _get_continue_reading_subseteq (self : PersonalizationEngine) (b : Book) :
  b ∈ _get_continue_reading self -> b ∈ books (catalog self).
Proof.
  rewrite _get_continue_reading_unfold. intros Hb. apply subseteq_take in Hb.
  apply elem_of_continue_reading_entries in Hb as (h & _ & _ & _ & Hb).
  by apply _get_book_by_id_Some in Hb as [Hb _].
Qed.

Lemma _get_new_in_preferred_genres_subseteq
    (fromisoformat : string -> option datetime) (now : Z)
    (self : PersonalizationEngine) (b : Book) :
  b ∈ _get_new_in_preferred_genres fromisoformat now self ->
  b ∈ books (catalog self).
Proof.
  rewrite _get_new_in_preferred_genres_unfold. intros Hb.
  apply subseteq_take in Hb.
  apply list_elem_of_In, filter_In in Hb as [Hb _]. by apply list_elem_of_In.
Qed.

(** X11.  The feed holds at most 5 recommendations, 3 books to continue, 5 new
    books and 5 trending books, every one of them a book of the catalog;
    with an empty catalog all four lists are empty. *)
Theorem feed_bounded (fromisoformat : string -> option datetime) (now : Z)
    (stamp : string) (self : PersonalizationEngine) :
  let feed := generate_personalized_feed fromisoformat now stamp self in
  (length (recommendations feed) <= 5)%nat /\
  (length (continue_reading feed) <= 3)%nat /\
  (length (new_in_genres feed) <= 5)%nat /\
  (length (trending feed) <= 5)%nat /\
  (forall b,
     b ∈ recommendations feed ++ continue_reading feed
         ++ new_in_genres feed ++ trending feed ->
     b ∈ books (catalog self)) /\
  (books (catalog self) = [] ->
   recommendations feed = [] /\ continue_reading feed = [] /\
   new_in_genres feed = [] /\ trending feed = []).
Proof.
  intros feed. subst feed. simpl.
  assert (forall b,
    b ∈ get_recommendations self 5 ++ _get_continue_reading self
        ++ _get_new_in_preferred_genres fromisoformat now self
        ++ _get_trending self ->
    b ∈ books (catalog self)) as Hsub.
  { intros b Hb. rewrite !elem_of_app in Hb.
    destruct Hb as [Hb|[Hb|[Hb|Hb]]].
    - by eapply get_recommendations_subseteq.
    - by apply _get_continue_reading_subseteq.
    - by eapply _get_new_in_preferred_genres_subseteq.
    - by apply _get_trending_subseteq. }
  split; [rewrite get_recommendations_unfold, length_take; lia|].
  split; [rewrite _get_continue_reading_unfold, length_take; lia|].
  split; [rewrite _get_new_in_preferred_genres_unfold, length_take; lia|].
  split; [unfold _get_trending; cbv zeta; rewrite length_take; lia|].
  split; [done|]. intros Hnil. rewrite Hnil in Hsub.
  assert (forall l : list Book, (forall b, b ∈ l -> b ∈ []) -> l = []) as Hempty.
  { intros [|x l] H; [done|]. specialize (H x (list_elem_of_here _ _)).
    by apply elem_of_nil in H. }
  repeat split; apply Hempty; intros b Hb; apply Hsub; rewrite !elem_of_app; tauto.
Qed.

(** X12.  Once a "completed" interaction is recorded for an id, no book of that
    id is listed under [continue_reading], however often it was started. *)
Theorem continue_reading_after_completed (self : PersonalizationEngine)
    (now i : string) (r : option Z) (b : Book) :
  b ∈ _get_continue_reading (record_interaction self now i "completed" r) ->
  b ∈ books (catalog self) /\ b_id b <> Some i.
Proof.
  intros Hb. split; [by apply _get_continue_reading_subseteq in Hb|].
  rewrite _get_continue_reading_unfold in Hb. apply subseteq_take in Hb.
  apply elem_of_continue_reading_entries in Hb as (h & _ & _ & Hc & Hb).
  apply _get_book_by_id_Some in Hb as [_ Hid]. rewrite Hid. intros [= Hi].
  apply (Hc (new_interaction now i "completed" r)); [|by simpl|done].
  simpl. apply elem_of_app. right. by apply list_elem_of_singleton.
Qed.

Lemma continue_reading_after_completed_witness :
  book_A ∈ books (catalog started_twice) /\ b_id book_A <> Some "B".
Proof.
  apply (continue_reading_after_completed started_twice "t3" "B" None book_A).
  vm_compute. left.
Defined.

Lemma started_unfinished_after_started (self : PersonalizationEngine)
    (now i : string) (r : option Z) (h : Interaction) :
  started_unfinished (record_interaction self now i "started" r) h
  = started_unfinished self h.
Proof.
  unfold started_unfinished. simpl. rewrite existsb_app. simpl.
  by rewrite andb_false_r, !orb_false_r.
Qed.

(** X13.  Starting a book of the catalog that the history never completes puts
    one more entry at the end of the books in progress; as the list is cut
    to its first three entries, the book shows up only when fewer than
    three entries precede it. *)
Theorem continue_reading_after_started (self : PersonalizationEngine)
    (now i : string) (r : option Z) (b : Book) :
  _get_book_by_id self i = Some b ->
  (forall h, h ∈ history (user_data self) -> book_id h = i ->
     action h <> "completed") ->
  let self' := record_interaction self now i "started" r in
  continue_reading_entries self' = continue_reading_entries self ++ [b] /\
  _get_continue_reading self' = take 3 (continue_reading_entries self ++ [b]) /\
  ((3 <= length (continue_reading_entries self))%nat ->
   _get_continue_reading self' = _get_continue_reading self).
Proof.
  intros Hb Hc self'.
  assert (continue_reading_entries self'
          = continue_reading_entries self ++ [b]) as E.
  { unfold continue_reading_entries. subst self'.
    change (history (user_data (record_interaction self now i "started" r)))
      with (history (user_data self) ++ [new_interaction now i "started" r]).
    rewrite omap_app. f_equal.
    - apply list_omap_ext, Forall2_same_length_lookup_2; [done|].
      intros k x y Hx Hy. assert (x = y) as -> by congruence.
      by rewrite started_unfinished_after_started.
    - simpl. rewrite started_unfinished_after_started.
      rewrite (proj2 (started_unfinished_spec self
                        (new_interaction now i "started" r))); [|by split].
      change (_get_book_by_id (record_interaction self now i "started" r) i)
        with (_get_book_by_id self i). by rewrite Hb. }
  split; [done|]. rewrite !_get_continue_reading_unfold, E.
  split; [done|]. intros Hlen. by rewrite take_app_le by lia.
Qed.

Lemma continue_reading_after_started_witness :
  let self' := record_interaction (fresh_engine [book_A; book_B]) "t" "A" "started" None in
  continue_reading_entries self'
  = continue_reading_entries (fresh_engine [book_A; book_B]) ++ [book_A] /\
  _get_continue_reading self'
  = take 3 (continue_reading_entries (fresh_engine [book_A; book_B]) ++ [book_A]) /\
  ((3 <= length (continue_reading_entries (fresh_engine [book_A; book_B])))%nat ->
   _get_continue_reading self'
   = _get_continue_reading (fresh_engine [book_A; book_B])).
Proof.
  apply (continue_reading_after_started (fresh_engine [book_A; book_B])
           "t" "A" None book_A).
  - reflexivity.
  - intros h Hh. by apply elem_of_nil in Hh.
Defined.

(** ** More on the new books *)

(** X14.  Every book listed under [new_in_genres] has a genre that the genres
    preference contains and a non-empty [added_date] that parses to a
    naive instant less than 31 days before the clock; the list follows
    catalog order and holds at most five books.  Without any genre
    preference the list is empty. *)
Theorem new_in_genres_sound (fromisoformat : string -> option datetime) (now : Z)
    (self : PersonalizationEngine) :
  let result := _get_new_in_preferred_genres fromisoformat now self in
  (length result <= 5)%nat /\
  result `sublist_of` books (catalog self) /\
  (forall b, b ∈ result ->
     (exists g, g ∈ default [] (b_genres b) /\
        py_in g (default (PList []) (preferences (user_data self) !! "genres"))
        = true) /\
     exists d t, b_added_date b = Some d /\ d <> EmptyString /\
       fromisoformat d = Some (Naive t) /\ now - t < 31 * day_us) /\
  (preferences (user_data self) !! "genres" = None \/
   preferences (user_data self) !! "genres" = Some (PList []) ->
   result = []).
Proof.
  intros result. subst result. rewrite _get_new_in_preferred_genres_unfold.
  split; [rewrite length_take; lia|].
  split; [etransitivity; [apply sublist_take | apply list_filter_sublist]|].
  split.
  - intros b Hb. apply subseteq_take in Hb.
    apply list_elem_of_In, filter_In in Hb as [_ Hb].
    unfold is_new_in_genres in Hb. apply andb_true_iff in Hb as [Hg Hd].
    split.
    + apply existsb_exists in Hg as (g & Hg & Hin). exists g.
      split; [by apply list_elem_of_In | done].
    + destruct (b_added_date b) as [d|]; [|done].
      apply andb_true_iff in Hd as [Hne Hd].
      destruct (fromisoformat d) as [[t|t o]|] eqn:Hp; try done.
      exists d, t. split; [done|]. split; [by intros ->|]. split; [done|].
      by apply timedelta_days_le_30, Z.leb_le.
  - intros Hnone.
    assert (List.filter (is_new_in_genres fromisoformat now self)
              (books (catalog self)) = []) as ->; [|done].
    induction (books (catalog self)) as [|b l IH]; simpl; [done|].
    assert (is_new_in_genres fromisoformat now self b = false) as ->; [|done].
    unfold is_new_in_genres. apply andb_false_iff. left.
    destruct Hnone as [-> | ->]; simpl;
      induction (default [] (b_genres b)) as [|g gs IHg]; simpl; done.
Qed.

(** ** Counters *)

Lemma count_of_cons (k k' : string) (c : Z) (d : list (string * Z)) :
  count_of k ((k', c) :: d) = if String.eqb k k' then c else count_of k d.
Proof. unfold count_of. simpl. by destruct (String.eqb k k'). Qed.

Lemma count_of_incr (k k' : string) (d : list (string * Z)) :
  count_of k' (count_incr k d)
  = if String.eqb k' k then count_of k' d + 1 else count_of k' d.
Proof.
  induction d as [|[k0 c] d IH]; simpl.
  - rewrite count_of_cons. by destruct (String.eqb k' k).
  - destruct (String.eqb_spec k k0) as [->|Hk]; rewrite !count_of_cons.
    + by destruct (String.eqb_spec k' k0).
    + rewrite IH. destruct (String.eqb_spec k' k0) as [->|Hk'].
      * by rewrite (proj2 (String.eqb_neq k0 k)) by done.
      * done.
Qed.

Lemma keys_count_incr (k : string) (d : list (string * Z)) :
  map fst (count_incr k d)
  = if bool_decide (k ∈ map fst d) then map fst d else map fst d ++ [k].
Proof.
  induction d as [|[k0 c] d IH]; simpl; [done|].
  destruct (String.eqb_spec k k0) as [->|Hk]; simpl.
  - rewrite bool_decide_true; [done|]. by left.
  - rewrite IH. destruct (decide (k ∈ map fst d)) as [Hin|Hin].
    + rewrite !bool_decide_true; [done| by right | done].
    + rewrite !bool_decide_false; [done| |done].
      intros H. apply elem_of_cons in H as [?|?]; done.
Qed.

Lemma NoDup_keys_count_incr (k : string) (d : list (string * Z)) :
  NoDup (map fst d) -> NoDup (map fst (count_incr k d)).
Proof.
  intros Hd. rewrite keys_count_incr. case_bool_decide; [done|].
  by apply NoDup_snoc_fresh.
Qed.

Lemma positive_count_incr (k : string) (d : list (string * Z)) :
  Forall (fun kc => 1 <= snd kc) d -> Forall (fun kc => 1 <= snd kc) (count_incr k d).
Proof.
  induction 1 as [|[k0 c] d Hc Hd IH]; simpl.
  - by repeat constructor.
  - destruct (String.eqb k k0); constructor; simpl in *; (lia || done).
Qed.

Lemma sum_count_incr (k : string) (d : list (string * Z)) :
  foldr Z.add 0 (map snd (count_incr k d)) = foldr Z.add 0 (map snd d) + 1.
Proof.
  induction d as [|[k0 c] d IH]; simpl; [done|].
  destruct (String.eqb k k0); simpl; lia.
Qed.

(** With distinct keys the count of a key is the number stored with it. *)
Lemma count_of_elem (k : string) (c : Z) (d : list (string * Z)) :
  NoDup (map fst d) -> (k, c) ∈ d -> count_of k d = c.
Proof.
  induction d as [|[k0 c0] d IH]; simpl; intros Hnd Hin.
  - by apply elem_of_nil in Hin.
  - apply NoDup_cons in Hnd as [Hk0 Hnd]. rewrite count_of_cons.
    apply elem_of_cons in Hin as [[= -> ->]|Hin].
    + by rewrite String.eqb_refl.
    + destruct (String.eqb_spec k k0) as [->|_]; [|by apply IH].
      destruct Hk0. apply list_elem_of_fmap. by exists (k0, c).
Qed.

Lemma count_of_nonzero (k : string) (d : list (string * Z)) :
  count_of k d <> 0 -> (k, count_of k d) ∈ d.
Proof.
  induction d as [|[k0 c0] d IH]; [done|]. rewrite count_of_cons.
  destruct (String.eqb_spec k k0) as [->|_]; intros H; [by left|].
  right. by apply IH.
Qed.

Lemma occurrences_cons (g x : string) (l : list string) :
  occurrences g (x :: l) = (if String.eqb g x then 1 else 0) + occurrences g l.
Proof.
  unfold occurrences. destruct (String.eqb_spec g x) as [->|Hg].
  - rewrite filter_cons_True by done. simpl length. lia.
  - rewrite filter_cons_False by congruence. lia.
Qed.

(** Counting the genres of one book. *)
Lemma count_of_fold_incr (g : string) (gs : list string) (d : list (string * Z)) :
  count_of g (fold_left (fun gc genre => count_incr genre gc) gs d)
  = count_of g d + occurrences g gs.
Proof.
  revert d. induction gs as [|x gs IH]; intros d; simpl.
  - unfold occurrences. simpl. lia.
  - rewrite IH, count_of_incr, occurrences_cons.
    destruct (String.eqb g x); lia.
Qed.

Lemma fold_incr_invariant (gs : list string) (d : list (string * Z)) :
  NoDup (map fst d) /\ Forall (fun kc => 1 <= snd kc) d ->
  NoDup (map fst (fold_left (fun gc genre => count_incr genre gc) gs d)) /\
  Forall (fun kc => 1 <= snd kc)
    (fold_left (fun gc genre => count_incr genre gc) gs d).
Proof.
  revert d. induction gs as [|x gs IH]; intros d [Hn Hp]; simpl; [done|].
  apply IH. split; [by apply NoDup_keys_count_incr | by apply positive_count_incr].
Qed.

(** The genre counter after the first loop. *)
Lemma genre_counts_fold (self : PersonalizationEngine) (hist : list Interaction)
    (gc : list (string * Z)) (lu : list string) (g : string) :
  NoDup (map fst gc) /\ Forall (fun kc => 1 <= snd kc) gc ->
  let gc' := fst (fold_left (count_genres_step self) hist (gc, lu)) in
  count_of g gc' = count_of g gc + genre_tally self g hist /\
  NoDup (map fst gc') /\ Forall (fun kc => 1 <= snd kc) gc'.
Proof.
  revert gc lu. induction hist as [|h hist IH]; intros gc lu Hinv; simpl.
  - unfold genre_tally. simpl. split; [lia|done].
  - unfold genre_tally. simpl. fold (genre_tally self g hist).
    destruct (_get_book_by_id self (book_id h)) as [b|].
    + destruct (IH (fold_left (fun gc genre => count_incr genre gc)
                      (default [] (b_genres b)) gc) (lu ++ [book_id h])
                  (fold_incr_invariant _ _ Hinv)) as (Hc & Hn & Hp).
      split; [|done]. rewrite Hc, count_of_fold_incr. lia.
    + destruct (IH gc (lu ++ [book_id h]) Hinv) as (Hc & Hn & Hp).
      split; [|done]. rewrite Hc. lia.
Qed.

Lemma genre_counts_spec (self : PersonalizationEngine) (g : string) :
  count_of g (genre_counts self) = genre_tally self g (history (user_data self)) /\
  NoDup (map fst (genre_counts self)) /\
  Forall (fun kc => 1 <= snd kc) (genre_counts self).
Proof.
  unfold genre_counts.
  destruct (genre_counts_fold self (history (user_data self)) [] [] g)
    as (Hc & Hn & Hp); [split; constructor|].
  split; [|done]. rewrite Hc. unfold count_of. simpl. lia.
Qed.

Lemma action_counts_fold (hist : list Interaction) (d : list (string * Z)) (a : string) :
  NoDup (map fst d) /\ Forall (fun kc => 1 <= snd kc) d ->
  let d' := fold_left (fun acts interaction => count_incr (action interaction) acts)
              hist d in
  count_of a d'
  = count_of a d + Z.of_nat (length (filter (fun h => action h = a) hist)) /\
  NoDup (map fst d') /\ Forall (fun kc => 1 <= snd kc) d' /\
  foldr Z.add 0 (map snd d') = foldr Z.add 0 (map snd d) + Z.of_nat (length hist).
Proof.
  revert d. induction hist as [|h hist IH]; intros d [Hn Hp]; simpl.
  - split; [lia|]. split; [done|]. split; [done|lia].
  - destruct (IH (count_incr (action h) d)) as (Hc & Hn' & Hp' & Hs).
    { split; [by apply NoDup_keys_count_incr | by apply positive_count_incr]. }
    split; [|split; [done|split; [done|]]].
    + rewrite Hc, count_of_incr.
      destruct (String.eqb_spec a (action h)) as [->|Ha].
      * rewrite filter_cons_True by done. simpl length. lia.
      * rewrite filter_cons_False by congruence. lia.
    + rewrite Hs, sum_count_incr. lia.
Qed.

(** ** The analysis of a history *)

Section AnalysisSpec.
Variable round2 : Q -> Q.

(** The report for a history that is not empty, field by field. *)
Lemma analyze_preferences_unfold (self : PersonalizationEngine) :
  history (user_data self) <> [] ->
  analyze_preferences round2 self
  = Analysis (map fst (top_genre_counts self)) (action_counts self)
      (match map snd (map_to_list (ratings (user_data self))) with
       | [] => (0 # 1)%Q
       | rs =>
           round2 (Qdiv (inject_Z (foldr Z.add 0 rs))
                     (inject_Z (Z.of_nat (length rs))))
       end)
      (size (list_to_set (map book_id (history (user_data self))) : gset string))
      (_generate_preference_suggestions self (top_genre_counts self)).
Proof.
  intros Hne. unfold analyze_preferences, analyze_preferences_log,
    top_genre_counts, genre_counts, action_counts. cbv zeta.
  destruct (history (user_data self)) as [|h hist] eqn:Hh; [done|].
  destruct (fold_left (count_genres_step self) (h :: hist) ([], [])) as [gc lu].
  simpl. by destruct (map snd (map_to_list (ratings (user_data self)))).
Qed.

(** X15.  The reading patterns of the report: every action of the history is
    listed once, with the number of interactions that carry it, so the
    counts add up to the length of the history; the number of books
    interacted with is the number of distinct ids, between 1 and the length
    of the history; and without ratings the average reported is 0. *)
Theorem analyze_preferences_patterns (self : PersonalizationEngine)
    (tg : list string) (rp : list (string * Z)) (avg : Q) (total : nat)
    (sugg : list string) :
  analyze_preferences round2 self = Analysis tg rp avg total sugg ->
  NoDup (map fst rp) /\
  (forall a,
     count_of a rp
     = Z.of_nat (length (filter (fun h => action h = a) (history (user_data self))))) /\
  (forall a c, (a, c) ∈ rp -> 1 <= c /\ exists h, h ∈ history (user_data self) /\ action h = a) /\
  foldr Z.add 0 (map snd rp) = Z.of_nat (length (history (user_data self))) /\
  total = length (remove_dups (map book_id (history (user_data self)))) /\
  (1 <= total <= length (history (user_data self)))%nat /\
  (ratings (user_data self) = ∅ -> avg = (0 # 1)%Q).
Proof.
  intros Hrep.
  assert (history (user_data self) <> []) as Hne.
  { intros Hnil. unfold analyze_preferences, analyze_preferences_log in Hrep.
    rewrite Hnil in Hrep. done. }
  rewrite (analyze_preferences_unfold self Hne) in Hrep.
  injection Hrep as <- <- <- <- <-.
  destruct (action_counts_fold (history (user_data self)) [] EmptyString (conj (NoDup_nil_2) (Forall_nil_2 _)))
    as (_ & Hn & Hp & Hs).
  fold (action_counts self) in Hn, Hp, Hs.
  assert (forall a, count_of a (action_counts self)
    = Z.of_nat (length (filter (fun h => action h = a) (history (user_data self)))))
    as Hcount.
  { intros a.
    destruct (action_counts_fold (history (user_data self)) [] a
                (conj (NoDup_nil_2) (Forall_nil_2 _))) as (Hc & _).
    fold (action_counts self) in Hc. rewrite Hc. unfold count_of. simpl. lia. }
  split; [done|]. split; [done|]. split; [|split; [simpl in Hs; lia|]].
  - intros a c Hin. rewrite List.Forall_forall in Hp.
    split; [apply (Hp (a, c)); by apply list_elem_of_In|].
    pose proof (count_of_elem a c _ Hn Hin) as Hc. rewrite Hcount in Hc.
    destruct (filter (fun h => action h = a) (history (user_data self)))
      as [|h l] eqn:Hf.
    + apply list_elem_of_In in Hin. specialize (Hp _ Hin). simpl in *. lia.
    + assert (h ∈ filter (fun h => action h = a) (history (user_data self)))
        as Hh by (rewrite Hf; by left).
      apply list_elem_of_filter in Hh as [Ha Hh]. by exists h.
  - assert (size (list_to_set (map book_id (history (user_data self))) : gset string)
            = length (remove_dups (map book_id (history (user_data self))))) as ->.
    { assert (list_to_set (map book_id (history (user_data self)))
              = (list_to_set (remove_dups (map book_id (history (user_data self))))
                 : gset string)) as ->.
      { apply set_eq. intros x.
        by rewrite !elem_of_list_to_set, elem_of_remove_dups. }
      apply size_list_to_set, NoDup_remove_dups. }
    split; [done|]. split.
    + split.
      * destruct (history (user_data self)) as [|h l]; [done|].
        destruct (remove_dups (map book_id (h :: l))) as [|x xs] eqn:Hr; [|simpl; lia].
        assert (book_id h ∈ remove_dups (map book_id (h :: l))) as Hin.
        { apply elem_of_remove_dups. by left. }
        rewrite Hr in Hin. by apply elem_of_nil in Hin.
      * etransitivity; [apply length_remove_dups_le|]. by rewrite length_map.
    + intros ->. by rewrite map_to_list_empty.
Qed.
Lemma top_genre_counts_elem (self : PersonalizationEngine) (g : string) (c : Z) :
  (g, c) ∈ top_genre_counts self ->
  (g, c) ∈ genre_counts self /\
  c = genre_tally self g (history (user_data self)) /\ 1 <= c.
Proof.
  intros Hin. unfold top_genre_counts in Hin. apply subseteq_take in Hin.
  rewrite py_sort_desc_Permutation in Hin.
  destruct (genre_counts_spec self g) as (Hc & Hn & Hp).
  split; [done|]. split.
  - by rewrite <- Hc, (count_of_elem g c _ Hn Hin).
  - rewrite List.Forall_forall in Hp. apply (Hp (g, c)). by apply list_elem_of_In.
Qed.

Lemma top_genre_counts_nil (self : PersonalizationEngine) :
  top_genre_counts self = [] <->
  forall g, genre_tally self g (history (user_data self)) = 0.
Proof.
  unfold top_genre_counts. split.
  - intros Hnil g. destruct (genre_counts_spec self g) as (<- & _ & _).
    destruct (genre_counts self) as [|kc d] eqn:Hgc; [done|].
    apply take_nil_inv in Hnil as [?|Hnil]; [done|].
    pose proof (py_sort_desc_Permutation snd (kc :: d)) as Hperm.
    rewrite Hnil in Hperm. by apply Permutation_nil_cons in Hperm.
  - intros Hz. destruct (genre_counts self) as [|[g c] d] eqn:Hgc; [done|].
    destruct (genre_counts_spec self g) as (Hc & Hn & Hp).
    rewrite Hgc, count_of_cons, String.eqb_refl, Hz in Hc.
    rewrite Hgc in Hp. apply Forall_cons in Hp as [Hp _]. simpl in Hp. lia.
Qed.

(** X16.  The top genres of the report: at most three, without repetition,
    each counted at least once among the books of the history; a genre
    counted more often than a listed one is listed as well; and the list
    is empty exactly when the history leads to no genre at all. *)
Theorem analyze_preferences_top_genres (self : PersonalizationEngine)
    (tg : list string) (rp : list (string * Z)) (avg : Q) (total : nat)
    (sugg : list string) :
  analyze_preferences round2 self = Analysis tg rp avg total sugg ->
  (length tg <= 3)%nat /\
  NoDup tg /\
  (forall g, g ∈ tg -> 1 <= genre_tally self g (history (user_data self))) /\
  (forall g g', g ∈ tg ->
     genre_tally self g (history (user_data self))
     < genre_tally self g' (history (user_data self)) ->
     g' ∈ tg) /\
  (tg = [] <-> forall g, genre_tally self g (history (user_data self)) = 0).
Proof.
  intros Hrep.
  assert (history (user_data self) <> []) as Hne.
  { intros Hnil. unfold analyze_preferences, analyze_preferences_log in Hrep.
    rewrite Hnil in Hrep. done. }
  rewrite (analyze_preferences_unfold self Hne) in Hrep.
  injection Hrep as <- _ _ _ _.
  split; [rewrite length_map; unfold top_genre_counts; rewrite length_take; lia|].
  split; [|split; [|split]].
  - destruct (genre_counts_spec self EmptyString) as (_ & Hn & _).
    eapply sublist_NoDup;
      [|apply (fmap_sublist fst), (sublist_take _ 3)].
    change (NoDup (fst <$> py_sort_desc snd Z.ltb (genre_counts self))).
    by rewrite py_sort_desc_Permutation.
  - intros g Hg. apply list_elem_of_fmap in Hg as ([g0 c] & -> & Hin).
    apply top_genre_counts_elem in Hin as (_ & -> & Hc). done.
  - intros g g' Hg Hlt. apply list_elem_of_fmap in Hg as ([g0 c] & -> & Hin).
    simpl in Hlt. pose proof (top_genre_counts_elem _ _ _ Hin) as (_ & Hc & Hpos).
    destruct (genre_counts_spec self g') as (Hc' & Hn & _).
    assert ((g', count_of g' (genre_counts self)) ∈ genre_counts self) as Hin'.
    { apply count_of_nonzero. lia. }
    remember (count_of g' (genre_counts self)) as c' eqn:Hc'eq.
    rewrite <- (py_sort_desc_Permutation snd) in Hin'.
    destruct (py_sort_desc_stable snd (genre_counts self)) as [Hs _].
    destruct (take_ranked_top _ _ 3 _ _ Hs Hin Hin') as [Htop|Hd].
    + apply list_elem_of_fmap. by exists (g', c').
    + unfold desc in Hd. simpl in Hd. lia.
  - rewrite <- top_genre_counts_nil. split; [apply fmap_nil_inv | by intros ->].
Qed.

Lemma _generate_preference_suggestions_spec (self : PersonalizationEngine)
    (top : list (string * Z)) :
  let sugg := _generate_preference_suggestions self top in
  (length sugg <= 2)%nat /\
  ("Rate more books to improve recommendations" ∈ sugg <->
   (size (ratings (user_data self)) < 5)%nat) /\
  ("Explore different genres to get better recommendations" ∈ sugg <-> top = []) /\
  (forall g rest, top = g :: rest -> (length top < 3)%nat ->
     "You seem to like " +:+ fst g +:+ " - try exploring similar genres" ∈ sugg).
Proof.
  unfold _generate_preference_suggestions. cbv zeta.
  destruct top as [|g top];
    destruct (Nat.ltb_spec (size (ratings (user_data self))) 5) as [Hr|Hr];
    [| |destruct (Nat.ltb_spec (length (g :: top)) 3) as [Hl|Hl]..];
    simpl app; (split; [simpl; lia|]);
    rewrite ?elem_of_cons, ?elem_of_nil;
    (split; [split; [tauto || (intros H; exfalso; intuition (discriminate || lia))
                    | tauto || (intros H; exfalso; lia)]|]);
    (split; [split; [tauto || (intros H; exfalso; intuition discriminate)
                    | tauto || (intros H; discriminate)]|]);
    intros g0 rest Heq Hlen; try discriminate; injection Heq as -> ->;
    rewrite ?elem_of_cons; try tauto; exfalso; lia.
Qed.

(** X17.  The suggestions of the report: at most two; "Rate more books" exactly
    when fewer than five ratings are stored; "Explore different genres"
    exactly when there is no top genre; and with one or two top genres the
    hint names the first of them. *)
Theorem analyze_preferences_suggestions (self : PersonalizationEngine)
    (tg : list string) (rp : list (string * Z)) (avg : Q) (total : nat)
    (sugg : list string) :
  analyze_preferences round2 self = Analysis tg rp avg total sugg ->
  (length sugg <= 2)%nat /\
  ("Rate more books to improve recommendations" ∈ sugg <->
   (size (ratings (user_data self)) < 5)%nat) /\
  ("Explore different genres to get better recommendations" ∈ sugg <-> tg = []) /\
  (forall g rest, tg = g :: rest -> (length tg < 3)%nat ->
     "You seem to like " +:+ g +:+ " - try exploring similar genres" ∈ sugg).
Proof.
  intros Hrep.
  assert (history (user_data self) <> []) as Hne.
  { intros Hnil. unfold analyze_preferences, analyze_preferences_log in Hrep.
    rewrite Hnil in Hrep. done. }
  rewrite (analyze_preferences_unfold self Hne) in Hrep.
  injection Hrep as <- _ _ _ <-.
  destruct (_generate_preference_suggestions_spec self (top_genre_counts self))
    as (Hlen & Hrate & Hexp & Hlike).
  split; [done|]. split; [done|]. split.
  - rewrite Hexp. split; [by intros -> | apply fmap_nil_inv].
  - intros g rest Heq Hl. rewrite length_map in Hl.
    destruct (top_genre_counts self) as [|[g0 c] top]; [done|].
    injection Heq as -> _. by apply (Hlike (g, c) top).
Qed.
End AnalysisSpec.

Lemma analyze_preferences_patterns_witness :
  NoDup (map fst [("started", 2)]) /\
  (forall a,
     count_of a [("started", 2)]
     = Z.of_nat (length (filter (fun h => action h = a)
                           (history (user_data started_twice))))) /\
  (forall a c, (a, c) ∈ [("started", 2)] ->
     1 <= c /\ exists h, h ∈ history (user_data started_twice) /\ action h = a) /\
  foldr Z.add 0 (map snd [("started", 2)])
  = Z.of_nat (length (history (user_data started_twice))) /\
  1%nat = length (remove_dups (map book_id (history (user_data started_twice)))) /\
  (1 <= 1 <= length (history (user_data started_twice)))%nat /\
  (ratings (user_data started_twice) = ∅ -> (0 # 1)%Q = (0 # 1)%Q).
Proof.
  apply (analyze_preferences_patterns (fun q => q) started_twice ["scifi"]
           [("started", 2)] (0 # 1)%Q 1
           ["You seem to like scifi - try exploring similar genres";
            "Rate more books to improve recommendations"]).
  reflexivity.
Defined.

Lemma analyze_preferences_top_genres_witness :
  (length ["scifi"] <= 3)%nat /\
  NoDup ["scifi"] /\
  (forall g, g ∈ ["scifi"] ->
     1 <= genre_tally started_twice g (history (user_data started_twice))) /\
  (forall g g', g ∈ ["scifi"] ->
     genre_tally started_twice g (history (user_data started_twice))
     < genre_tally started_twice g' (history (user_data started_twice)) ->
     g' ∈ ["scifi"]) /\
  (["scifi"] = [] <->
   forall g, genre_tally started_twice g (history (user_data started_twice)) = 0).
Proof.
  apply (analyze_preferences_top_genres (fun q => q) started_twice ["scifi"]
           [("started", 2)] (0 # 1)%Q 1
           ["You seem to like scifi - try exploring similar genres";
            "Rate more books to improve recommendations"]).
  reflexivity.
Defined.

Lemma analyze_preferences_suggestions_witness :
  let sugg := ["You seem to like scifi - try exploring similar genres";
               "Rate more books to improve recommendations"] in
  (length sugg <= 2)%nat /\
  ("Rate more books to improve recommendations" ∈ sugg <->
   (size (ratings (user_data started_twice)) < 5)%nat) /\
  ("Explore different genres to get better recommendations" ∈ sugg <->
   ["scifi"] = []) /\
  (forall g rest, ["scifi"] = g :: rest -> (length ["scifi"] < 3)%nat ->
     "You seem to like " +:+ g +:+ " - try exploring similar genres" ∈ sugg).
Proof.
  apply (analyze_preferences_suggestions (fun q => q) started_twice ["scifi"]
           [("started", 2)] (0 # 1)%Q 1
           ["You seem to like scifi - try exploring similar genres";
            "Rate more books to improve recommendations"]).
  reflexivity.
Defined.

(** ** The command line *)

Section MainSpec.
Variable dumps_feed : Feed -> string.
Variable dumps_report : AnalysisReport -> string.
Variable fromisoformat : string -> option datetime.
Variable round2 : Q -> Q.

Lemma close_engine_unchanged (disk : Disk) (uid : string) (e : PersonalizationEngine) :
  user_file e = user_files disk !! uid -> close_engine disk uid e = disk.
Proof.
  unfold close_engine. intros ->. destruct disk as [files cat]. simpl.
  destruct (files !! uid) as [d|] eqn:Hd; [|done]. by rewrite insert_id.
Qed.

(** X18.  The actions [recommend], [feed] and [analyze] leave every file as it
    is: only [rate] writes. *)
Theorem main_read_only (disk : Disk) (args : Args) (t_init t_act : string) (now : Z) :
  arg_action args <> Rate ->
  fst (main dumps_feed dumps_report fromisoformat round2 disk args t_init t_act now)
  = disk.
Proof.
  intros Hact. unfold main. cbv zeta.
  destruct (arg_action args); try done; simpl; by apply close_engine_unchanged.
Qed.

(** X19.  [rate] without a book id, with an empty book id, without a rating or
    with the rating 0 prints the request for both arguments and writes
    nothing. *)
Theorem main_rate_rejected (disk : Disk) (args : Args) (t_init t_act : string)
    (now : Z) :
  arg_action args = Rate ->
  arg_book_id args = None \/ arg_book_id args = Some EmptyString \/
  arg_rating args = None \/ arg_rating args = Some 0 ->
  main dumps_feed dumps_report fromisoformat round2 disk args t_init t_act now
  = (disk, ["❌ Please provide --book-id and --rating"]).
Proof.
  intros Hact Hbad. unfold main. cbv zeta. rewrite Hact.
  assert (close_engine disk (engine_user_id (Some (arg_user args)))
            (open_engine disk (Some (arg_user args)) t_init) = disk) as Hsame
    by by apply close_engine_unchanged.
  destruct (arg_book_id args) as [bid|], (arg_rating args) as [r|];
    rewrite ?Hsame; try done.
  assert (py_truthy_str (Some bid) && py_truthy_rating (Some r) = false) as ->;
    [|done].
  destruct Hbad as [?|[[= ->]|[?|[= ->]]]]; try done.
  apply andb_false_r.
Qed.

(** X20.  [rate] with a book id and a rating other than 0 stores the rating
    under the id, whatever integer it is, appends one "rated" interaction
    to the history of that user, leaves the other users' files and the
    catalog alone, and prints the confirmation; an engine opened afterwards
    for the same user holds the stored document. *)
Theorem main_rate_accepted (disk : Disk) (args : Args) (t_init t_act t_next : string)
    (now : Z) (bid : string) (r : Z) :
  arg_action args = Rate ->
  arg_book_id args = Some bid -> bid <> EmptyString ->
  arg_rating args = Some r -> r <> 0 ->
  let uid := engine_user_id (Some (arg_user args)) in
  let d0 := _load_user_data (user_files disk !! uid) t_init in
  let d1 :=
    {| preferences := preferences d0;
       history := history d0 ++ [new_interaction t_act bid "rated" (Some r)];
       ratings := <[bid := r]> (ratings d0);
       bookmarks := bookmarks d0;
       created_at := created_at d0 |} in
  let result :=
    main dumps_feed dumps_report fromisoformat round2 disk args t_init t_act now in
  snd result = ["✅ Rated book " +:+ bid +:+ ": " +:+ pretty r +:+ "/5"] /\
  user_files (fst result) = <[uid := d1]> (user_files disk) /\
  catalog_file (fst result) = catalog_file disk /\
  user_data (open_engine (fst result) (Some (arg_user args)) t_next) = d1.
Proof.
  intros Hact Hbid Hne Hr Hr0 uid d0 d1 result.
  subst result. unfold main. cbv zeta. rewrite Hact, Hbid, Hr.
  assert (py_truthy_str (Some bid) && py_truthy_rating (Some r) = true) as ->.
  { simpl. apply andb_true_iff. split; apply negb_true_iff.
    - by apply String.eqb_neq.
    - by apply Z.eqb_neq. }
  assert (user_file (record_interaction
            (open_engine disk (Some (arg_user args)) t_init) t_act bid "rated"
            (Some r)) = Some d1) as Hfile.
  { unfold record_interaction. cbv zeta. simpl.
    rewrite (proj2 (Z.eqb_neq r 0)) by done. simpl. done. }
  unfold close_engine. rewrite Hfile. simpl.
  split; [done|]. split; [done|]. split; [done|].
  unfold open_engine. simpl. fold uid. by rewrite lookup_insert_eq.
Qed.
End MainSpec.

(** A data directory without user files, and a [json.dumps] for the
    examples. *)
Lemma main_read_only_witness :
  fst (main (fun _ => "feed") (fun _ => "report") parse_2999 (fun q => q)
         (mkDisk ∅ (Some {| books := [book_A; book_B] |}))
         (mkArgs "ann" Recommend None None) "t0" "t1" (9000 * day_us))
  = mkDisk ∅ (Some {| books := [book_A; book_B] |}).
Proof.
  apply (main_read_only (fun _ => "feed") (fun _ => "report") parse_2999
           (fun q => q)).
  discriminate.
Defined.

Lemma main_rate_rejected_witness :
  main (fun _ => "feed") (fun _ => "report") parse_2999 (fun q => q)
    (mkDisk ∅ (Some {| books := [book_A; book_B] |}))
    (mkArgs "ann" Rate (Some "A") (Some 0)) "t0" "t1" (9000 * day_us)
  = (mkDisk ∅ (Some {| books := [book_A; book_B] |}),
     ["❌ Please provide --book-id and --rating"]).
Proof.
  apply (main_rate_rejected (fun _ => "feed") (fun _ => "report") parse_2999
           (fun q => q)).
  - reflexivity.
  - right. right. right. reflexivity.
Defined.

Lemma main_rate_accepted_witness :
  let disk := mkDisk ∅ (Some {| books := [book_A; book_B] |}) in
  let args := mkArgs "ann" Rate (Some "A") (Some 7) in
  let uid := engine_user_id (Some (arg_user args)) in
  let d0 := _load_user_data (user_files disk !! uid) "t0" in
  let d1 :=
    {| preferences := preferences d0;
       history := history d0 ++ [new_interaction "t1" "A" "rated" (Some 7)];
       ratings := <["A" := 7]> (ratings d0);
       bookmarks := bookmarks d0;
       created_at := created_at d0 |} in
  let result :=
    main (fun _ => "feed") (fun _ => "report") parse_2999 (fun q => q)
      disk args "t0" "t1" (9000 * day_us) in
  snd result = ["✅ Rated book " +:+ "A" +:+ ": " +:+ pretty 7 +:+ "/5"] /\
  user_files (fst result) = <[uid := d1]> (user_files disk) /\
  catalog_file (fst result) = catalog_file disk /\
  user_data (open_engine (fst result) (Some (arg_user args)) "t2") = d1.
Proof.
  apply (main_rate_accepted (fun _ => "feed") (fun _ => "report") parse_2999
           (fun q => q) (mkDisk ∅ (Some {| books := [book_A; book_B] |}))
           (mkArgs "ann" Rate (Some "A") (Some 7)) "t0" "t1" "t2"
           (9000 * day_us) "A" 7); (reflexivity || discriminate).
Defined.

(** The confirmation printed for the out-of-range rating 7. *)
Example main_rate_accepted_output :
  snd (main (fun _ => "feed") (fun _ => "report") parse_2999 (fun q => q)
         (mkDisk ∅ (Some {| books := [book_A; book_B] |}))
         (mkArgs "ann" Rate (Some "A") (Some 7)) "t0" "t1" (9000 * day_us))
  = ["✅ Rated book A: 7/5"].
Proof. vm_compute. reflexivity. Qed.

(** ** Bounds of the score *)

Lemma size_inter_py_set_le (xs : list string) (v : pref_value) :
  0 <= Z.of_nat (size (list_to_set xs ∩ py_set v : gset string))
    <= Z.of_nat (length xs).
Proof. unfold py_set. rewrite size_inter_common. apply common_le_length. Qed.

(** X21.  The score is never negative and at most 3 per genre, 2 per theme and
    1 per format of the book, plus 11 for the author, the reading level
    and the rating. *)
Theorem score_bounds (self : PersonalizationEngine) (b : Book) :
  0 <= _calculate_relevance_score self b
    <= 3 * Z.of_nat (length (default [] (b_genres b)))
       + 2 * Z.of_nat (length (default [] (b_themes b)))
       + Z.of_nat (length (default [] (b_formats b))) + 11.
Proof.
  rewrite _calculate_relevance_score_terms. cbv zeta.
  pose proof (size_inter_py_set_le (default [] (b_genres b))
    (default (PList []) (preferences (user_data self) !! "genres"))).
  pose proof (size_inter_py_set_le (default [] (b_themes b))
    (default (PList []) (preferences (user_data self) !! "themes"))).
  pose proof (size_inter_py_set_le (default [] (b_formats b))
    (default (PList []) (preferences (user_data self) !! "format_preference"))).
  assert (0 <= rating_bonus (b_average_rating b) <= 5).
  { unfold rating_bonus. destruct (b_average_rating b) as [q|]; [|lia].
    destruct (Qle_bool _ _); [lia|]. destruct (Qle_bool _ _); lia. }
  destruct (py_in _ _), (py_eq_opt _ _); lia.
Qed.

Lemma common_nil_r (xs : list string) : common xs [] = 0.
Proof.
  unfold common. induction (remove_dups xs) as [|x l IH]; [done|].
  rewrite filter_cons_False; [done|]. apply not_elem_of_nil.
Qed.

(** X22.  On a profile that was just created, with no preference added, only
    the reading level "general", the formats "digital" and "audio" and the
    average rating of a book count. *)
Theorem score_on_fresh_profile (cfile : option Catalog) (now : string) (b : Book) :
  _calculate_relevance_score (init None cfile now) b
  = (if bool_decide (b_reading_level b = Some "general") then 2 else 0)
    + common (default [] (b_formats b)) ["digital"; "audio"]
    + rating_bonus (b_average_rating b).
Proof.
  rewrite _calculate_relevance_score_terms. cbv zeta.
  change (preferences (user_data (init None cfile now)))
    with (preferences (default_user_data now)).
  assert (preferences (default_user_data now) !! "genres" = Some (PList [])) as ->
    by reflexivity.
  assert (preferences (default_user_data now) !! "authors" = Some (PList [])) as ->
    by reflexivity.
  assert (preferences (default_user_data now) !! "themes" = Some (PList [])) as ->
    by reflexivity.
  assert (preferences (default_user_data now) !! "reading_level"
          = Some (PStr "general")) as -> by reflexivity.
  assert (preferences (default_user_data now) !! "format_preference"
          = Some (PList ["digital"; "audio"])) as -> by reflexivity.
  unfold py_set. simpl py_iter. simpl default at 2 4 6.
  rewrite !size_inter_common, !common_nil_r.
  change (default (PList []) (Some (PList []))) with (PList []).
  assert (py_in (default EmptyString (b_author b)) (PList []) = false) as ->.
  { done. }
  assert (py_eq_opt (b_reading_level b) (Some (PStr "general"))
          = bool_decide (b_reading_level b = Some "general")) as ->.
  { unfold py_eq_opt. destruct (b_reading_level b) as [x|].
    - apply bool_decide_ext. split; [by intros -> | by intros [= ->]].
    - by rewrite bool_decide_false. }
  lia.
Qed.

(** ** Missing files *)

Section MissingFiles.
Variable dumps_feed : Feed -> string.
Variable dumps_report : AnalysisReport -> string.
Variable fromisoformat : string -> option datetime.
Variable round2 : Q -> Q.

(** X23.  [recommend] prints the header and one numbered line for each of at
    most five recommendations; without a catalog file it prints the header
    alone.  [analyze] for a user without a stored document prints the
    report for insufficient data, whatever the catalog holds. *)
Theorem main_missing_files (disk : Disk) (args : Args) (t_init t_act : string)
    (now : Z) :
  let out :=
    snd (main dumps_feed dumps_report fromisoformat round2 disk args
           t_init t_act now) in
  let uid := engine_user_id (Some (arg_user args)) in
  (arg_action args = Recommend ->
   (length out <= 6)%nat /\
   (catalog_file disk = None -> out = ["📚 Personalized Recommendations:"])) /\
  (arg_action args = Analyze -> user_files disk !! uid = None ->
   out = ["📊 Preference Analysis:"; dumps_report insufficient_data_report]).
Proof.
  intros out uid. subst out. unfold main. cbv zeta. split.
  - intros ->. simpl. split.
    + rewrite length_imap, get_recommendations_unfold, length_take. lia.
    + intros Hnone. unfold open_engine. by rewrite Hnone.
  - intros -> Hnone. simpl. unfold open_engine. fold uid. by rewrite Hnone.
Qed.
End MissingFiles.
